(** * assets-service: the image pipeline, the S3 adapter and the avatar handlers

    A shallow embedding of [app/usecases/images.py], [app/adapters/s3.py] and
    [app/api/v1/avatars.py].  Calls that leave the process (the S3 client, the
    moderation service, the logger) are recorded as events; the bucket is a
    finite map from keys to objects.  Pillow is an external library: decoding,
    resampling and encoding are taken from an environment, and only the four
    attributes the pipeline reads from an image are kept. *)

From Stdlib Require Import ZArith Lia List Bool Ascii String.
From Stdlib Require Import Floats.SpecFloat.
From stdpp Require Import base strings gmap pretty.

Open Scope string_scope.
Open Scope list_scope.
Open Scope Z_scope.

(** ** Python values *)

Definition bytes := list Byte.byte.

(** Python's [float] is IEEE 754 binary64, rounding to nearest even.  The
    operations are those of the Standard Library's executable specification. *)
Module pyfloat.

Definition prec : Z := 53.
Definition emax : Z := 1024.

(** [float(n)]: exact for [|n| < 2^53], which covers every pixel count. *)
Definition of_int (n : Z) : spec_float := binary_normalize prec emax n 0 false.

(** [a / b] on two [int]s; [None] is [ZeroDivisionError]. *)
Definition truediv (a b : Z) : option spec_float :=
  if b =? 0 then None else Some (SFdiv prec emax (of_int a) (of_int b)).

(** [n * x] with [n : int] and [x : float]. *)
Definition mul_int (n : Z) (x : spec_float) : spec_float :=
  SFmul prec emax (of_int n) x.

(** [int(x)]: truncation towards zero; [None] is the [OverflowError] or
    [ValueError] raised on an infinity or a NaN. *)
Definition to_int (x : spec_float) : option Z :=
  match x with
  | S754_zero _ => Some 0
  | S754_finite s m e => Some (cond_Zopp s (Z.shiftl (Zpos m) e))
  | S754_infinity _ | S754_nan => None
  end.

End pyfloat.

(** [str.lower()] on ASCII text. *)
Definition lower_ascii (c : ascii) : ascii :=
  let n := nat_of_ascii c in
  if ((65 <=? n) && (n <=? 90))%nat then ascii_of_nat (n + 32) else c.

Fixpoint lower (s : string) : string :=
  match s with
  | EmptyString => EmptyString
  | String c s' => String (lower_ascii c) (lower s')
  end.

(** [needle in s] on two [str]s. *)
Fixpoint contains (needle s : string) : bool :=
  String.prefix needle s ||
  match s with
  | EmptyString => false
  | String _ s' => contains needle s'
  end.

(** [s.endswith(suffix)]. *)
Definition endswith (s suffix : string) : bool :=
  let n := String.length s in
  let k := String.length suffix in
  if (k <=? n)%nat then String.eqb (String.substring (n - k) k s) suffix else false.

(** ** Data model *)

(** Modelled from the spec: [app/errors.py] is not part of the sources.  The
    spec names the error kinds [InvalidContent], [InappropriateContent] and
    [ServiceUnavailable]; the handlers also provide for kinds they do not map,
    which [OTHER_CODE] stands for. *)
Inductive ErrorCode : Type :=
  | INVALID_CONTENT
  | INAPPROPRIATE_CONTENT
  | SERVICE_UNAVAILABLE
  | OTHER_CODE (name : string).

(** Modelled from the spec: a structured error carrying a human-readable
    message and an error kind. *)
Record Error : Type := mkError { user_feedback : string; code : ErrorCode }.

(** What the pipeline reads from a decoded Pillow image. *)
Record Image : Type := mkImage {
  format : option string;
  get_format_mimetype : option string;
  width : Z;
  height : Z
}.

Inductive LogLevel : Type := DEBUG | INFO | WARNING | ERROR | EXCEPTION.

(** Exceptions of the S3 client that the adapter handles. *)
Inductive BotoError : Type := NoSuchKey | BotoCoreError | ClientError.

Record S3Object : Type := mkS3Object {
  Body : bytes;
  ContentType : option string
}.

(** Calls that leave the process, in the order they are made. *)
Inductive Event : Type :=
  | PutObject (key : string) (body : bytes) (content_type acl : option string)
  | GetObject (key : string)
  | DeleteObject (key : string)
  | DetectModerationLabels (image : bytes)
  | Log (level : LogLevel) (msg : string).

(** The bucket, and the outcome the provider has in store for each of the
    coming client calls ([None]: the call goes through; past the end of the
    list every call goes through). *)
Record World : Type := mkWorld {
  bucket : gmap string S3Object;
  faults : list (option BotoError)
}.

(** Configuration ([settings]) and the behaviour of the collaborators that are
    not part of the sources.  [None] from a Pillow operation is a raised
    exception; [None] from the moderation adapter is "unavailable". *)
Record Env : Type := mkEnv {
  SHOULD_FILTER_INAPPROPRIATE_CONTENT : bool;
  DEFAULT_AVATAR_FILENAME : string;
  parser_close : bytes -> option Image;
  image_resize : Image -> Z * Z -> option Image;
  image_save : Image -> string -> option bytes;
  detect_moderation_labels : bytes -> option (list string)
}.

(** ** Effects: a state monad over the world that also collects events *)

Definition M (A : Type) : Type := World -> A * World * list Event.

Definition ret {A} (a : A) : M A := fun w => (a, w, []).

Definition bind {A B} (m : M A) (f : A -> M B) : M B :=
  fun w =>
    let '(a, w1, l1) := m w in
    let '(b, w2, l2) := f a w1 in
    (b, w2, l1 ++ l2).

Notation "'let*' x := m 'in' k" := (bind m (fun x => k))
  (at level 10, x name, m at level 100, k at level 200).

Definition emit (e : Event) : M unit := fun w => (tt, w, [e]).

Definition logging (level : LogLevel) (msg : string) : M unit := emit (Log level msg).

Definition result {A} (r : A * World * list Event) : A := fst (fst r).
Definition world_after {A} (r : A * World * list Event) : World := snd (fst r).
Definition events {A} (r : A * World * list Event) : list Event := snd r.

(** ** The S3 client *)
Module s3_client.

Definition next_fault : M (option BotoError) :=
  fun w =>
    match faults w with
    | [] => (None, w, [])
    | f :: fs => (f, mkWorld (bucket w) fs, [])
    end.

Definition set_bucket (f : gmap string S3Object -> gmap string S3Object) : M unit :=
  fun w => (tt, mkWorld (f (bucket w)) (faults w), []).

Definition get_bucket : M (gmap string S3Object) :=
  fun w => (bucket w, w, []).

(** [Some exc]: the call raised [exc]. *)
Definition put_object (key : string) (body : bytes) (content_type acl : option string)
  : M (option BotoError) :=
  let* _ := emit (PutObject key body content_type acl) in
  let* f := next_fault in
  match f with
  | Some exc => ret (Some exc)
  | None => let* _ := set_bucket (insert key (mkS3Object body content_type)) in ret None
  end.

Definition get_object (key : string) : M (BotoError + S3Object) :=
  let* _ := emit (GetObject key) in
  let* f := next_fault in
  match f with
  | Some exc => ret (inl exc)
  | None =>
      let* b := get_bucket in
      match b !! key with
      | None => ret (inl NoSuchKey)
      | Some obj => ret (inr obj)
      end
  end.

Definition delete_object (key : string) : M (option BotoError) :=
  let* _ := emit (DeleteObject key) in
  let* f := next_fault in
  match f with
  | Some exc => ret (Some exc)
  | None => let* _ := set_bucket (delete key) in ret None
  end.

End s3_client.

(** ** app/adapters/s3.py *)
Module s3.

Definition key_of (directory file_name : string) : string :=
  directory +:+ "/" +:+ file_name.

Definition upload (body : bytes) (file_name directory : string)
    (content_type acl : option string) : M unit :=
  let* r := s3_client.put_object (key_of directory file_name) body content_type acl in
  match r with
  | Some _ => let* _ := logging ERROR "Failed to upload file to S3" in ret tt
  | None => ret tt
  end.

Record DownloadResponse : Type := mkDownloadResponse {
  body : bytes;
  content_type : option string
}.

Definition download (file_name directory : string) : M (option DownloadResponse) :=
  let* r := s3_client.get_object (key_of directory file_name) in
  match r with
  | inl NoSuchKey => ret None
  | inl _ => let* _ := logging ERROR "Failed to download file from S3" in ret None
  | inr obj => ret (Some (mkDownloadResponse (Body obj) (ContentType obj)))
  end.

Definition delete (file_name directory : string) : M unit :=
  let* r := s3_client.delete_object (key_of directory file_name) in
  match r with
  | Some NoSuchKey => ret tt
  | Some _ => let* _ := logging ERROR "Failed to download file from S3" in ret tt
  | None => ret tt
  end.

End s3.

(** [for x in xs: body(x)] *)
Fixpoint for_each {A} (xs : list A) (body : A -> M unit) : M unit :=
  match xs with
  | [] => ret tt
  | x :: xs' => let* _ := body x in for_each xs' body
  end.

(** ** app/usecases/images.py *)
Module images.

Definition ALLOWED_MIME_TYPES : gset string :=
  {[ "image/png"; "image/jpeg"; "image/gif"; "image/webp" ]}.

Definition VIDEO_MIME_TYPES : gset string := {[ "image/gif" ]}.

Definition DISALLOWED_MODERATION_LABELS : gset string :=
  {[ "Explicit Nudity"; "Explicit Sexual Activity"; "Sex Toys";
     "Obstructed Intimate Parts"; "Self-Harm"; "Blood & Gore";
     "Death and Emaciation"; "Hate Symbols" ]}.

Inductive ImageType : Type :=
  | USER_AVATAR
  | USER_PROFILE_BACKGROUND
  | CLAN_ICON
  | SCREENSHOT.

Definition get_s3_folder (self : ImageType) : string :=
  match self with
  | USER_AVATAR => "avatars"
  | USER_PROFILE_BACKGROUND => "profile-backgrounds"
  | CLAN_ICON => "clan-icons"
  | SCREENSHOT => "screenshots"
  end.

Definition get_max_single_dimension_size (self : ImageType) : Z :=
  match self with
  | USER_AVATAR => 512
  | USER_PROFILE_BACKGROUND => 1920
  | CLAN_ICON => 256
  | SCREENSHOT => 1920
  end.

Definition is_screenshot (self : ImageType) : bool :=
  match self with SCREENSHOT => true | _ => false end.

Definition should_disallow_upload (moderation_labels : list string) : bool :=
  existsb (fun l => bool_decide (l ∈ DISALLOWED_MODERATION_LABELS)) moderation_labels.

(** Lines 95-98: the size handed to [image.resize].  [None] is an exception
    raised by the arithmetic. *)
Definition new_size (max_single_dimension_size w h : Z) : option (Z * Z) :=
  let biggest_dimension := Z.max w h in
  match pyfloat.truediv max_single_dimension_size biggest_dimension with
  | None => None
  | Some aspect_ratio =>
      match pyfloat.to_int (pyfloat.mul_int w aspect_ratio),
            pyfloat.to_int (pyfloat.mul_int h aspect_ratio) with
      | Some new_width, Some new_height => Some (new_width, new_height)
      | _, _ => None
      end
  end.

(** What the try block of [upload_image] ends with. *)
Inductive Processed : Type :=
  | Rejected (e : Error)
  | Raised
  | Encoded (image_format image_mime_type : string) (image_content : bytes).

Section WithEnv.
Context (env : Env).

(** Lines 90-99: [None] is an exception, [Some] the image that goes on
    to be saved. *)
Definition resize_if_too_large (image_type : ImageType) (image : Image)
  : option Image :=
  let max_single_dimension_size := get_max_single_dimension_size image_type in
  if (width image >? max_single_dimension_size)
     || (height image >? max_single_dimension_size)
  then
    match new_size max_single_dimension_size (width image) (height image) with
    | None => None
    | Some size => image_resize env image size
    end
  else Some image.

(** Lines 80-103, the body of the try block. *)
Definition process_image (image_type : ImageType) (image_content : bytes)
  : Processed :=
  match parser_close env image_content with
  | None => Raised
  | Some image =>
      match format image with
      | None => Rejected (mkError "Invalid Image Format" INVALID_CONTENT)
      | Some image_format =>
          match get_format_mimetype image with
          | None => Rejected (mkError "Invalid Image Content Type" INVALID_CONTENT)
          | Some image_mime_type =>
              if negb (bool_decide (image_mime_type ∈ ALLOWED_MIME_TYPES))
              then Rejected (mkError "Invalid Image Content Type" INVALID_CONTENT)
              else
                match resize_if_too_large image_type image with
                | None => Raised
                | Some image' =>
                    match image_save env image' image_format with
                    | None => Raised
                    | Some content => Encoded image_format image_mime_type content
                    end
                end
          end
      end
  end.

(** [rekognition.detect_moderation_labels] *)
Definition rekognition_detect_moderation_labels (image_content : bytes)
  : M (option (list string)) :=
  let* _ := emit (DetectModerationLabels image_content) in
  ret (detect_moderation_labels env image_content).

(** Lines 116-141: [Some e] is the early return of [e]. *)
Definition moderate (image_type : ImageType) (no_ext_file_name : string)
    (image_mime_type : string) (image_content : bytes) : M (option Error) :=
  if SHOULD_FILTER_INAPPROPRIATE_CONTENT env then
    if negb (bool_decide (image_mime_type ∈ VIDEO_MIME_TYPES))
       && negb (is_screenshot image_type)
    then
      let* moderation_labels := rekognition_detect_moderation_labels image_content in
      match moderation_labels with
      | None => ret (Some (mkError "Service Unavailable" SERVICE_UNAVAILABLE))
      | Some labels =>
          if should_disallow_upload labels then
            let* _ := logging WARNING "Rejected image due to moderation labels" in
            ret (Some (mkError "Inappropriate Content" INAPPROPRIATE_CONTENT))
          else ret None
      end
    else ret None
  else ret None.

Definition upload_image (image_type : ImageType) (image_content : bytes)
    (no_ext_file_name : string) : M (option Error) :=
  match process_image image_type image_content with
  | Rejected e => ret (Some e)
  | Raised =>
      let* _ := logging EXCEPTION "Failed to process image" in
      ret (Some (mkError "Invalid Image" INVALID_CONTENT))
  | Encoded image_format image_mime_type content =>
      let* verdict := moderate image_type no_ext_file_name image_mime_type content in
      match verdict with
      | Some e => ret (Some e)
      | None =>
          let* _ := s3.upload content
                      (no_ext_file_name +:+ "." +:+ lower image_format)
                      (get_s3_folder image_type)
                      (Some image_mime_type) None in
          let* _ := logging INFO "Uploaded image" in
          ret None
      end
  end.

End WithEnv.

Definition DELETE_EXTENSIONS : list string := ["png"; "jpg"; "jpeg"; "gif"; "webp"].

Definition delete_image (image_type : ImageType) (no_ext_file_name : string)
  : M (option Error) :=
  let* _ := for_each DELETE_EXTENSIONS (fun ext =>
              s3.delete (no_ext_file_name +:+ "." +:+ ext) (get_s3_folder image_type)) in
  let* _ := logging INFO "Deleted image" in
  ret None.

End images.

(** ** app/api/v1/avatars.py *)
Module avatars.
Import images.

Inductive Content : Type :=
  | NoContent
  | Text (s : string)
  | Raw (b : bytes).

Record Response : Type := mkResponse {
  status_code : Z;
  content : Content;
  media_type : option string
}.

Definition _get_status_code_for_error (error_code : ErrorCode) : M Z :=
  match error_code with
  | INVALID_CONTENT => ret 400
  | INAPPROPRIATE_CONTENT => ret 400
  | SERVICE_UNAVAILABLE => ret 503
  | OTHER_CODE _ =>
      let* _ := logging WARNING "Unmapped error code while resolving http status code" in
      ret 500
  end.

(** The tail that [upload_avatar] and [delete_avatar] share: the error's status
    and message, or 204. *)
Definition respond (data : option Error) : M Response :=
  match data with
  | Some e =>
      let* status := _get_status_code_for_error (code e) in
      ret (mkResponse status (Text (user_feedback e)) None)
  | None => ret (mkResponse 204 NoContent None)
  end.

Section WithEnv.
Context (env : Env).

Definition upload_avatar (user_id : Z) (file_content : bytes) : M Response :=
  let* data := upload_image env USER_AVATAR file_content (pretty user_id) in
  respond data.

Definition get_avatar (file_path : string) : M Response :=
  if contains ".." file_path || contains "/" file_path then
    ret (mkResponse 404 NoContent None)
  else
    let file_path :=
      if negb (endswith file_path ".png") then file_path +:+ ".png" else file_path in
    let* download_response := s3.download file_path "avatars" in
    match download_response with
    | Some r =>
        let* _ := logging DEBUG "Served user avatar" in
        ret (mkResponse 200 (Raw (s3.body r)) (s3.content_type r))
    | None =>
        let* download_response :=
          s3.download (DEFAULT_AVATAR_FILENAME env) "avatars" in
        match download_response with
        | None =>
            let* _ := logging WARNING
              "Failed to serve non-existent user avatar and default avatar is missing" in
            ret (mkResponse 404 NoContent None)
        | Some r =>
            let* _ := logging DEBUG "Served user avatar" in
            ret (mkResponse 200 (Raw (s3.body r)) (s3.content_type r))
        end
    end.

Definition delete_avatar (user_id : Z) : M Response :=
  let* data := delete_image USER_AVATAR (pretty user_id) in
  respond data.

End WithEnv.

End avatars.

(** * Observing a run, and the spec's vocabulary *)

Import images avatars.

Definition is_s3_call (e : Event) : bool :=
  match e with
  | PutObject _ _ _ _ | GetObject _ | DeleteObject _ => true
  | _ => false
  end.

Definition s3_calls (l : list Event) : list Event := List.filter is_s3_call l.

Fixpoint moderation_calls (l : list Event) : list bytes :=
  match l with
  | [] => []
  | DetectModerationLabels b :: l' => b :: moderation_calls l'
  | _ :: l' => moderation_calls l'
  end.

(** In the spec's words, a path "has an extension present"; read here as: a
    dot occurs in it. *)
Definition has_extension (file_path : string) : bool := contains "." file_path.

(** Pillow's registry of MIME types ([Image.MIME]), read from the MIME type to
    the format registered under it, for the types the pipeline allows. *)
Definition pillow_format_of_mime (mime : string) : option string :=
  if String.eqb mime "image/png" then Some "PNG"
  else if String.eqb mime "image/jpeg" then Some "JPEG"
  else if String.eqb mime "image/gif" then Some "GIF"
  else if String.eqb mime "image/webp" then Some "WEBP"
  else None.

(** The size in the spec's words: [floor(width*scale)] by [floor(height*scale)]
    with [scale = cap / max(width, height)], taken over the rationals. *)
Definition spec_new_size (cap w h : Z) : Z * Z :=
  (w * cap / Z.max w h, h * cap / Z.max w h).

(** No character of the string is a dot or a slash. *)
Fixpoint no_dot_slash (s : string) : bool :=
  match s with
  | EmptyString => true
  | String c s' =>
      negb (Ascii.eqb c ".") && negb (Ascii.eqb c "/") && no_dot_slash s'
  end.

(** Sample inputs: an environment whose decoder yields a given image, whose
    resampler and encoder always succeed, and whose moderation service
    answers with a given label list. *)
Definition sample_env (filter_content : bool) (image : Image)
    (labels : option (list string)) : Env :=
  mkEnv filter_content "default.png"
        (fun _ => Some image)
        (fun _ size => Some (mkImage None None (fst size) (snd size)))
        (fun _ _ => Some [])
        (fun _ => labels).

Definition empty_world : World := mkWorld ∅ [].

(** * Properties *)

(** ** Reading a run *)

Lemma run_bind {A B} (m : M A) (f : A -> M B) (w : World) :
  bind m f w =
    (result (f (result (m w)) (world_after (m w))),
     world_after (f (result (m w)) (world_after (m w))),
     events (m w) ++ events (f (result (m w)) (world_after (m w)))).
Proof.
  unfold bind, result, world_after, events.
  destruct (m w) as [[a w1] l1]; simpl.
  destruct (f a w1) as [[b w2] l2]; reflexivity.
Qed.

Lemma events_bind {A B} (m : M A) (f : A -> M B) (w : World) :
  events (bind m f w) = events (m w) ++ events (f (result (m w)) (world_after (m w))).
Proof. rewrite run_bind; reflexivity. Qed.

Lemma result_bind {A B} (m : M A) (f : A -> M B) (w : World) :
  result (bind m f w) = result (f (result (m w)) (world_after (m w))).
Proof. rewrite run_bind; reflexivity. Qed.

Lemma s3_calls_app (l1 l2 : list Event) :
  s3_calls (l1 ++ l2) = s3_calls l1 ++ s3_calls l2.
Proof. apply List.filter_app. Qed.

Lemma moderation_calls_app (l1 l2 : list Event) :
  moderation_calls (l1 ++ l2) = moderation_calls l1 ++ moderation_calls l2.
Proof.
  induction l1 as [|e l1 IH]; simpl; [reflexivity|].
  destruct e; simpl; rewrite ?IH; reflexivity.
Qed.

(** ** The adapter's calls *)

Lemma s3_delete_calls (file_name directory : string) (w : World) :
  s3_calls (events (s3.delete file_name directory w))
    = [DeleteObject (s3.key_of directory file_name)].
Proof.
  destruct w as [b fs].
  destruct fs as [|[[]|] fs]; reflexivity.
Qed.

Lemma for_each_delete_calls (directory : string) (name_of : string -> string)
    (exts : list string) (w : World) :
  s3_calls (events (for_each exts (fun ext => s3.delete (name_of ext) directory) w))
    = map (fun ext => DeleteObject (s3.key_of directory (name_of ext))) exts.
Proof.
  revert w; induction exts as [|ext exts IH]; intros w; simpl; [reflexivity|].
  rewrite events_bind, s3_calls_app, s3_delete_calls, IH; reflexivity.
Qed.

(** ** delete_image *)

(** C7: [delete_image] returns [None] (success) in every world, whatever the
    provider answers; its S3 calls are exactly one delete per extension of
    png, jpg, jpeg, gif, webp, in that order; hence the outcome for a stored
    image and for a missing one is the same. *)
Theorem C7_delete_image_never_fails (image_type : ImageType) (no_ext_file_name : string)
    (w : World) :
  result (delete_image image_type no_ext_file_name w) = None
  /\ s3_calls (events (delete_image image_type no_ext_file_name w))
     = [ DeleteObject (get_s3_folder image_type +:+ "/" +:+ (no_ext_file_name +:+ ".png"));
         DeleteObject (get_s3_folder image_type +:+ "/" +:+ (no_ext_file_name +:+ ".jpg"));
         DeleteObject (get_s3_folder image_type +:+ "/" +:+ (no_ext_file_name +:+ ".jpeg"));
         DeleteObject (get_s3_folder image_type +:+ "/" +:+ (no_ext_file_name +:+ ".gif"));
         DeleteObject (get_s3_folder image_type +:+ "/" +:+ (no_ext_file_name +:+ ".webp")) ]
  /\ forall w' : World,
       result (delete_image image_type no_ext_file_name w')
       = result (delete_image image_type no_ext_file_name w).
Proof.
  assert (Hres : forall v, result (delete_image image_type no_ext_file_name v) = None).
  { intros v. unfold delete_image. rewrite !result_bind. reflexivity. }
  split; [apply Hres|split].
  - unfold delete_image.
    rewrite events_bind, s3_calls_app.
    rewrite (for_each_delete_calls (get_s3_folder image_type)
               (fun ext => no_ext_file_name +:+ "." +:+ ext)).
    rewrite events_bind. simpl. reflexivity.
  - intros w'. rewrite !Hres. reflexivity.
Qed.

(** ** upload_image *)

Lemma s3_upload_run (body : bytes) (file_name directory : string)
    (content_type acl : option string) (w : World) :
  result (s3.upload body file_name directory content_type acl w) = tt
  /\ s3_calls (events (s3.upload body file_name directory content_type acl w))
     = [PutObject (s3.key_of directory file_name) body content_type acl]
  /\ moderation_calls (events (s3.upload body file_name directory content_type acl w)) = [].
Proof.
  destruct w as [b fs].
  destruct fs as [|[e|] fs]; repeat split; reflexivity.
Qed.

(** The moderation step makes no S3 call and leaves the world as it is. *)
Lemma moderate_run (env : Env) (image_type : ImageType) (no_ext_file_name mime : string)
    (content : bytes) (w : World) :
  world_after (moderate env image_type no_ext_file_name mime content w) = w
  /\ s3_calls (events (moderate env image_type no_ext_file_name mime content w)) = []
  /\ moderation_calls (events (moderate env image_type no_ext_file_name mime content w))
     = if SHOULD_FILTER_INAPPROPRIATE_CONTENT env
          && negb (bool_decide (mime ∈ VIDEO_MIME_TYPES))
          && negb (is_screenshot image_type)
       then [content] else [].
Proof.
  unfold moderate, rekognition_detect_moderation_labels.
  destruct (SHOULD_FILTER_INAPPROPRIATE_CONTENT env); simpl; [|repeat split; reflexivity].
  destruct (negb (bool_decide (mime ∈ VIDEO_MIME_TYPES)) && negb (is_screenshot image_type));
    [|repeat split; reflexivity].
  rewrite !run_bind; simpl.
  destruct (detect_moderation_labels env content) as [labels|]; simpl;
    [|repeat split; reflexivity].
  destruct (should_disallow_upload labels); repeat split; reflexivity.
Qed.

(** What a run of [upload_image] looks like once the try block is through. *)
Lemma upload_image_encoded (env : Env) (image_type : ImageType) (image_content : bytes)
    (no_ext_file_name : string) (w : World) (fmt mime : string) (content : bytes) :
  process_image env image_type image_content = Encoded fmt mime content ->
  let r := upload_image env image_type image_content no_ext_file_name w in
  let v := moderate env image_type no_ext_file_name mime content w in
  moderation_calls (events r) = moderation_calls (events v)
  /\ match result v with
     | Some e => result r = Some e /\ world_after r = w /\ s3_calls (events r) = []
     | None =>
         result r = None
         /\ s3_calls (events r)
            = [PutObject (s3.key_of (get_s3_folder image_type)
                            (no_ext_file_name +:+ "." +:+ lower fmt))
                 content (Some mime) None]
     end.
Proof.
  intros Hp r v. subst r v. unfold upload_image. rewrite Hp.
  destruct (moderate_run env image_type no_ext_file_name mime content w) as (Hw & Hs & _).
  rewrite run_bind.
  destruct (moderate env image_type no_ext_file_name mime content w) as [[res wv] evs].
  unfold result, world_after, events in *; simpl in *. subst wv.
  destruct res as [e|]; simpl.
  - rewrite app_nil_r. auto.
  - rewrite !run_bind.
    destruct (s3_upload_run content (no_ext_file_name +:+ "." +:+ lower fmt)
                (get_s3_folder image_type) (Some mime) None w) as (_ & Hu & Hm).
    unfold result, world_after, events in *; simpl in *.
    rewrite !moderation_calls_app, !s3_calls_app, Hs, Hu, Hm. simpl.
    rewrite app_nil_r. auto.
Qed.

Lemma process_image_rejected (env : Env) (image_type : ImageType) (image_content : bytes)
    (e : Error) :
  process_image env image_type image_content = Rejected e -> code e = INVALID_CONTENT.
Proof.
  unfold process_image.
  destruct (parser_close env image_content) as [image|]; [|discriminate].
  destruct (format image); [|intros [= <-]; reflexivity].
  destruct (get_format_mimetype image) as [m|]; [|intros [= <-]; reflexivity].
  destruct (negb (bool_decide (m ∈ ALLOWED_MIME_TYPES))); [intros [= <-]; reflexivity|].
  destruct (resize_if_too_large env image_type image) as [image'|]; [|discriminate].
  destruct (image_save env image' s); discriminate.
Qed.

(** A run whose try block does not get through: the error is of kind
    [INVALID_CONTENT], and neither S3 nor the moderation service is called. *)
Lemma upload_image_not_encoded (env : Env) (image_type : ImageType) (image_content : bytes)
    (no_ext_file_name : string) (w : World) :
  (forall fmt mime content,
     process_image env image_type image_content <> Encoded fmt mime content) ->
  let r := upload_image env image_type image_content no_ext_file_name w in
  (exists e, result r = Some e /\ code e = INVALID_CONTENT)
  /\ world_after r = w
  /\ s3_calls (events r) = []
  /\ moderation_calls (events r) = [].
Proof.
  intros Hne r; subst r. unfold upload_image.
  destruct (process_image env image_type image_content) as [e| |fmt mime content] eqn:Hp.
  - repeat split; try reflexivity.
    exists e; split; [reflexivity|]. eapply process_image_rejected; eassumption.
  - repeat split; try reflexivity. eexists; split; reflexivity.
  - exfalso. eapply Hne; reflexivity.
Qed.

Lemma is_screenshot_false (image_type : ImageType) :
  is_screenshot image_type = false <-> image_type <> SCREENSHOT.
Proof. destruct image_type; simpl; split; congruence. Qed.

Lemma not_video_mime (mime : string) :
  negb (bool_decide (mime ∈ VIDEO_MIME_TYPES)) = true <-> mime <> "image/gif".
Proof.
  rewrite negb_true_iff, bool_decide_eq_false.
  unfold VIDEO_MIME_TYPES. rewrite elem_of_singleton. reflexivity.
Qed.

(** C9: a run of [upload_image] that returns an error has made no S3 call at
    all, so it has put nothing, and the bucket is the one it started from. *)
Theorem C9_upload_error_writes_nothing (env : Env) (image_type : ImageType)
    (image_content : bytes) (no_ext_file_name : string) (w : World) (e : Error) :
  result (upload_image env image_type image_content no_ext_file_name w) = Some e ->
  bucket (world_after (upload_image env image_type image_content no_ext_file_name w))
    = bucket w
  /\ s3_calls (events (upload_image env image_type image_content no_ext_file_name w)) = []
  /\ forall key body content_type acl,
       ~ In (PutObject key body content_type acl)
            (events (upload_image env image_type image_content no_ext_file_name w)).
Proof.
  intros He.
  assert (H : world_after (upload_image env image_type image_content no_ext_file_name w) = w
              /\ s3_calls (events (upload_image env image_type image_content
                                     no_ext_file_name w)) = []).
  { destruct (process_image env image_type image_content) as [e0| |fmt mime content] eqn:Hp.
    - destruct (upload_image_not_encoded env image_type image_content no_ext_file_name w)
        as (_ & Hw & Hs & _); [rewrite Hp; discriminate|auto].
    - destruct (upload_image_not_encoded env image_type image_content no_ext_file_name w)
        as (_ & Hw & Hs & _); [rewrite Hp; discriminate|auto].
    - destruct (upload_image_encoded env image_type image_content no_ext_file_name w
                  fmt mime content Hp) as (_ & Hr).
      destruct (result (moderate env image_type no_ext_file_name mime content w)).
      + destruct Hr as (_ & Hw & Hs); auto.
      + destruct Hr as (Hr & _). rewrite Hr in He. discriminate. }
  destruct H as (Hw & Hs). rewrite Hw. repeat split; trivial.
  intros key body ct acl Hin.
  assert (Hin' : In (PutObject key body ct acl)
                   (s3_calls (events (upload_image env image_type image_content
                                        no_ext_file_name w)))).
  { unfold s3_calls. apply List.filter_In. split; [exact Hin|reflexivity]. }
  rewrite Hs in Hin'. exact Hin'.
Qed.

Lemma C9_witness :
  bucket (world_after (upload_image (sample_env true (mkImage (Some "PNG") (Some "image/png") 300 200) None)
                         USER_AVATAR [] "1001" empty_world))
    = bucket empty_world
  /\ s3_calls (events (upload_image (sample_env true (mkImage (Some "PNG") (Some "image/png") 300 200) None)
                         USER_AVATAR [] "1001" empty_world)) = []
  /\ forall key body content_type acl,
       ~ In (PutObject key body content_type acl)
            (events (upload_image (sample_env true (mkImage (Some "PNG") (Some "image/png") 300 200) None)
                       USER_AVATAR [] "1001" empty_world)).
Proof.
  apply (C9_upload_error_writes_nothing
           (sample_env true (mkImage (Some "PNG") (Some "image/png") 300 200) None)
           USER_AVATAR [] "1001" empty_world
           (mkError "Service Unavailable" SERVICE_UNAVAILABLE)).
  vm_compute. reflexivity.
Defined.

(** C3: when the decoded image's MIME type is not one of image/png,
    image/jpeg, image/gif, image/webp (or Pillow knows none for it),
    [upload_image] returns an error of kind [INVALID_CONTENT], whatever the
    moderation flag of the environment, and calls neither the moderation
    service nor S3. *)
Theorem C3_mime_outside_allowed_is_invalid_content (env : Env) (image_type : ImageType)
    (image_content : bytes) (no_ext_file_name : string) (w : World) (image : Image) :
  parser_close env image_content = Some image ->
  (forall mime, get_format_mimetype image = Some mime -> mime ∉ ALLOWED_MIME_TYPES) ->
  (exists e, result (upload_image env image_type image_content no_ext_file_name w) = Some e
             /\ code e = INVALID_CONTENT)
  /\ moderation_calls (events (upload_image env image_type image_content no_ext_file_name w)) = []
  /\ s3_calls (events (upload_image env image_type image_content no_ext_file_name w)) = [].
Proof.
  intros Hparse Hmime.
  destruct (upload_image_not_encoded env image_type image_content no_ext_file_name w)
    as (He & _ & Hs & Hm); [|auto].
  intros fmt mime content. unfold process_image. rewrite Hparse.
  destruct (format image); [|discriminate].
  destruct (get_format_mimetype image) as [m|] eqn:Hm; [|discriminate].
  specialize (Hmime m eq_refl).
  rewrite bool_decide_eq_false_2 by exact Hmime. discriminate.
Qed.

Lemma C3_witness :
  (exists e, result (upload_image (sample_env false (mkImage (Some "BMP") (Some "image/bmp") 64 64) None)
                       USER_AVATAR [] "1001" empty_world) = Some e
             /\ code e = INVALID_CONTENT)
  /\ moderation_calls (events (upload_image (sample_env false (mkImage (Some "BMP") (Some "image/bmp") 64 64) None)
                                 USER_AVATAR [] "1001" empty_world)) = []
  /\ s3_calls (events (upload_image (sample_env false (mkImage (Some "BMP") (Some "image/bmp") 64 64) None)
                         USER_AVATAR [] "1001" empty_world)) = [].
Proof.
  apply (C3_mime_outside_allowed_is_invalid_content
           (sample_env false (mkImage (Some "BMP") (Some "image/bmp") 64 64) None)
           USER_AVATAR [] "1001" empty_world
           (mkImage (Some "BMP") (Some "image/bmp") 64 64)).
  - reflexivity.
  - intros mime [= <-]. vm_compute. discriminate.
Defined.

(** C2: a run of [upload_image] calls the moderation service if and only if
    the configuration flag is set, the image type is not [SCREENSHOT], and the
    try block got through (decode, validate, resize, encode) with a MIME type
    other than image/gif; the call is then made once, on the re-encoded
    bytes.  A [SCREENSHOT] upload never calls it, nor does image/gif content. *)
Theorem C2_moderation_called_iff (env : Env) (image_type : ImageType)
    (image_content : bytes) (no_ext_file_name : string) (w : World) :
  (moderation_calls (events (upload_image env image_type image_content no_ext_file_name w))
     <> []
   <-> SHOULD_FILTER_INAPPROPRIATE_CONTENT env = true
       /\ image_type <> SCREENSHOT
       /\ exists fmt mime content,
            process_image env image_type image_content = Encoded fmt mime content
            /\ mime <> "image/gif")
  /\ (forall fmt mime content,
        process_image env image_type image_content = Encoded fmt mime content ->
        moderation_calls (events (upload_image env image_type image_content no_ext_file_name w))
          = [] \/
        moderation_calls (events (upload_image env image_type image_content no_ext_file_name w))
          = [content])
  /\ moderation_calls (events (upload_image env SCREENSHOT image_content no_ext_file_name w))
     = []
  /\ (forall fmt content,
        process_image env image_type image_content = Encoded fmt "image/gif" content ->
        moderation_calls (events (upload_image env image_type image_content no_ext_file_name w))
          = []).
Proof.
  assert (Hcalls : forall ty fmt mime content,
            process_image env ty image_content = Encoded fmt mime content ->
            moderation_calls (events (upload_image env ty image_content no_ext_file_name w))
            = if SHOULD_FILTER_INAPPROPRIATE_CONTENT env
                 && negb (bool_decide (mime ∈ VIDEO_MIME_TYPES))
                 && negb (is_screenshot ty)
              then [content] else []).
  { intros ty fmt mime content Hp.
    destruct (upload_image_encoded env ty image_content no_ext_file_name w
                fmt mime content Hp) as (Hm & _).
    rewrite Hm. apply moderate_run. }
  assert (Hnone : forall ty,
            (forall fmt mime content,
               process_image env ty image_content <> Encoded fmt mime content) ->
            moderation_calls (events (upload_image env ty image_content no_ext_file_name w))
            = []).
  { intros ty Hne. apply upload_image_not_encoded; exact Hne. }
  split; [split|split; [|split]].
  - intros Hcall.
    destruct (process_image env image_type image_content) as [e| |fmt mime content] eqn:Hp.
    + exfalso; apply Hcall, Hnone. rewrite Hp; discriminate.
    + exfalso; apply Hcall, Hnone. rewrite Hp; discriminate.
    + rewrite (Hcalls _ _ _ _ Hp) in Hcall.
      destruct (SHOULD_FILTER_INAPPROPRIATE_CONTENT env); [|contradiction].
      destruct (negb (bool_decide (mime ∈ VIDEO_MIME_TYPES))) eqn:Hv; [|contradiction].
      destruct (is_screenshot image_type) eqn:Hs; [contradiction|].
      split; [reflexivity|]. split; [apply is_screenshot_false; exact Hs|].
      exists fmt, mime, content. split; [reflexivity|]. apply not_video_mime; exact Hv.
  - intros (Hflag & Hty & fmt & mime & content & Hp & Hmime).
    rewrite (Hcalls _ _ _ _ Hp), Hflag.
    apply not_video_mime in Hmime. apply is_screenshot_false in Hty.
    rewrite Hmime, Hty. discriminate.
  - intros fmt mime content Hp. rewrite (Hcalls _ _ _ _ Hp).
    destruct (_ && _); [right|left]; reflexivity.
  - destruct (process_image env SCREENSHOT image_content) as [e| |fmt mime content] eqn:Hp.
    + apply Hnone. rewrite Hp; discriminate.
    + apply Hnone. rewrite Hp; discriminate.
    + rewrite (Hcalls _ _ _ _ Hp). simpl. rewrite !andb_false_r. reflexivity.
  - intros fmt content Hp. rewrite (Hcalls _ _ _ _ Hp).
    replace (negb (bool_decide ("image/gif" ∈ VIDEO_MIME_TYPES))) with false by reflexivity.
    rewrite andb_false_r. reflexivity.
Qed.

Lemma process_image_encoded_inv (env : Env) (image_type : ImageType) (image_content : bytes)
    (fmt mime : string) (content : bytes) :
  process_image env image_type image_content = Encoded fmt mime content ->
  exists image image',
    parser_close env image_content = Some image
    /\ format image = Some fmt
    /\ get_format_mimetype image = Some mime
    /\ mime ∈ ALLOWED_MIME_TYPES
    /\ resize_if_too_large env image_type image = Some image'
    /\ image_save env image' fmt = Some content.
Proof.
  unfold process_image.
  destruct (parser_close env image_content) as [image|]; [|discriminate].
  destruct (format image) as [f|] eqn:Hf; [|discriminate].
  destruct (get_format_mimetype image) as [m|] eqn:Hm; [|discriminate].
  destruct (bool_decide (m ∈ ALLOWED_MIME_TYPES)) eqn:Ha; simpl; [|discriminate].
  destruct (resize_if_too_large env image_type image) as [image'|] eqn:Hr; [|discriminate].
  destruct (image_save env image' f) as [c|] eqn:Hs; [|discriminate].
  intros [= <- <- <-]. exists image, image'.
  apply bool_decide_eq_true in Ha. auto 10.
Qed.

(** C6: an image whose width and height are both at most the cap of its type
    is not resized: the resize step hands back the image it was given, and a
    successful upload puts the encoding of that very image (hence of its
    width and height) and nothing else. *)
Theorem C6_within_cap_not_resized (env : Env) (image_type : ImageType)
    (image_content : bytes) (no_ext_file_name : string) (w : World) (image : Image) :
  parser_close env image_content = Some image ->
  width image <= get_max_single_dimension_size image_type ->
  height image <= get_max_single_dimension_size image_type ->
  resize_if_too_large env image_type image = Some image
  /\ (result (upload_image env image_type image_content no_ext_file_name w) = None ->
      exists fmt mime content,
        format image = Some fmt
        /\ get_format_mimetype image = Some mime
        /\ image_save env image fmt = Some content
        /\ s3_calls (events (upload_image env image_type image_content no_ext_file_name w))
           = [PutObject (get_s3_folder image_type +:+ "/" +:+
                           (no_ext_file_name +:+ "." +:+ lower fmt))
                content (Some mime) None]).
Proof.
  intros Hparse Hw Hh.
  assert (Hnoop : resize_if_too_large env image_type image = Some image).
  { unfold resize_if_too_large.
    replace (width image >? get_max_single_dimension_size image_type) with false
      by (symmetry; rewrite Z.gtb_ltb; apply Z.ltb_ge; lia).
    replace (height image >? get_max_single_dimension_size image_type) with false
      by (symmetry; rewrite Z.gtb_ltb; apply Z.ltb_ge; lia).
    reflexivity. }
  split; [exact Hnoop|]. intros Hok.
  destruct (process_image env image_type image_content) as [e| |fmt mime content] eqn:Hp.
  - destruct (upload_image_not_encoded env image_type image_content no_ext_file_name w)
      as ((e' & He' & _) & _); [rewrite Hp; discriminate|congruence].
  - destruct (upload_image_not_encoded env image_type image_content no_ext_file_name w)
      as ((e' & He' & _) & _); [rewrite Hp; discriminate|congruence].
  - destruct (upload_image_encoded env image_type image_content no_ext_file_name w
                fmt mime content Hp) as (_ & Hr).
    destruct (process_image_encoded_inv _ _ _ _ _ _ Hp)
      as (image0 & image' & Hparse' & Hf & Hm & _ & Hres & Hsave).
    assert (image0 = image) by congruence. subst image0.
    assert (image' = image) by congruence. subst image'.
    exists fmt, mime, content. repeat split; trivial.
    destruct (result (moderate env image_type no_ext_file_name mime content w)).
    + destruct Hr as (Hr & _). congruence.
    + apply Hr.
Qed.

Lemma C6_witness :
  resize_if_too_large (sample_env false (mkImage (Some "PNG") (Some "image/png") 300 200) None)
    USER_AVATAR (mkImage (Some "PNG") (Some "image/png") 300 200)
  = Some (mkImage (Some "PNG") (Some "image/png") 300 200)
  /\ (result (upload_image (sample_env false (mkImage (Some "PNG") (Some "image/png") 300 200) None)
                USER_AVATAR [] "1001" empty_world) = None ->
      exists fmt mime content,
        format (mkImage (Some "PNG") (Some "image/png") 300 200) = Some fmt
        /\ get_format_mimetype (mkImage (Some "PNG") (Some "image/png") 300 200) = Some mime
        /\ image_save (sample_env false (mkImage (Some "PNG") (Some "image/png") 300 200) None)
             (mkImage (Some "PNG") (Some "image/png") 300 200) fmt = Some content
        /\ s3_calls (events (upload_image
                               (sample_env false (mkImage (Some "PNG") (Some "image/png") 300 200) None)
                               USER_AVATAR [] "1001" empty_world))
           = [PutObject (get_s3_folder USER_AVATAR +:+ "/" +:+ ("1001" +:+ "." +:+ lower fmt))
                content (Some mime) None]).
Proof.
  apply (C6_within_cap_not_resized
           (sample_env false (mkImage (Some "PNG") (Some "image/png") 300 200) None)
           USER_AVATAR [] "1001" empty_world
           (mkImage (Some "PNG") (Some "image/png") 300 200)).
  - reflexivity.
  - simpl. lia.
  - simpl. lia.
Defined.

(** ** The handlers *)

Lemma s3_download_calls (file_name directory : string) (w : World) :
  s3_calls (events (s3.download file_name directory w))
    = [GetObject (s3.key_of directory file_name)].
Proof.
  destruct w as [b fs].
  unfold s3.download, s3_client.get_object, s3_client.next_fault, s3_client.get_bucket.
  destruct fs as [|[[]|] fs]; try reflexivity;
    unfold bind, ret, emit, events; simpl;
    destruct (b !! s3.key_of directory file_name); reflexivity.
Qed.

(** C5: a path that contains [..] or [/] is answered with 404, and the run
    makes no call at all: nothing is asked of S3. *)
Theorem C5_traversal_is_404_without_storage (env : Env) (file_path : string) (w : World) :
  contains ".." file_path = true \/ contains "/" file_path = true ->
  status_code (result (get_avatar env file_path w)) = 404
  /\ s3_calls (events (get_avatar env file_path w)) = []
  /\ events (get_avatar env file_path w) = []
  /\ world_after (get_avatar env file_path w) = w.
Proof.
  intros H. unfold get_avatar.
  replace (contains ".." file_path || contains "/" file_path) with true
    by (symmetry; apply orb_true_iff; exact H).
  repeat split.
Qed.

Lemma C5_witness :
  status_code (result (get_avatar (sample_env false (mkImage None None 0 0) None)
                         "../secrets" empty_world)) = 404
  /\ s3_calls (events (get_avatar (sample_env false (mkImage None None 0 0) None)
                         "../secrets" empty_world)) = []
  /\ events (get_avatar (sample_env false (mkImage None None 0 0) None)
               "../secrets" empty_world) = []
  /\ world_after (get_avatar (sample_env false (mkImage None None 0 0) None)
                    "../secrets" empty_world) = empty_world.
Proof.
  apply (C5_traversal_is_404_without_storage
           (sample_env false (mkImage None None 0 0) None) "../secrets" empty_world).
  left. reflexivity.
Defined.

(** C4, as stated, fails: [1001.jpg] passes the traversal check and has an
    extension, yet [.png] is appended and [avatars/1001.jpg.png] is fetched. *)
Lemma C4_counterexample :
  contains ".." "1001.jpg" = false
  /\ contains "/" "1001.jpg" = false
  /\ has_extension "1001.jpg" = true
  /\ hd_error (s3_calls (events (get_avatar (sample_env false (mkImage None None 0 0) None)
                                   "1001.jpg" empty_world)))
     = Some (GetObject "avatars/1001.jpg.png")
  /\ hd_error (s3_calls (events (get_avatar (sample_env false (mkImage None None 0 0) None)
                                   "1001.jpg" empty_world)))
     <> Some (GetObject "avatars/1001.jpg").
Proof. vm_compute. repeat split; discriminate. Qed.

(** C4, amended: for a path that passes the traversal check, [.png] is
    appended if and only if the path does not already end in [.png], and the
    key fetched first is [avatars/] followed by the resulting name. *)
Theorem C4_png_appended_unless_suffix (env : Env) (file_path : string) (w : World) :
  contains ".." file_path = false ->
  contains "/" file_path = false ->
  hd_error (s3_calls (events (get_avatar env file_path w)))
  = Some (GetObject ("avatars" +:+ "/" +:+
                       (if endswith file_path ".png" then file_path
                        else file_path +:+ ".png"))).
Proof.
  intros H1 H2. unfold get_avatar. rewrite H1, H2.
  change (false || false) with false. cbv iota.
  rewrite events_bind, s3_calls_app, s3_download_calls.
  destruct (endswith file_path ".png"); reflexivity.
Qed.

Lemma C4_witness :
  hd_error (s3_calls (events (get_avatar (sample_env false (mkImage None None 0 0) None)
                                "1001" empty_world)))
  = Some (GetObject ("avatars" +:+ "/" +:+
                       (if endswith "1001" ".png" then "1001" else "1001" +:+ ".png"))).
Proof.
  apply (C4_png_appended_unless_suffix
           (sample_env false (mkImage None None 0 0) None) "1001" empty_world);
    reflexivity.
Defined.

(** C8: [_get_status_code_for_error] answers 400 for [INVALID_CONTENT] and
    [INAPPROPRIATE_CONTENT], 503 for [SERVICE_UNAVAILABLE] and 500 for any other
    kind; the upload and delete handlers answer 204 when the pipeline returns
    no error, and otherwise the status of the error's kind. *)
Theorem C8_status_code_of_error_kind (env : Env) (user_id : Z) (file_content : bytes)
    (w : World) :
  result (_get_status_code_for_error INVALID_CONTENT w) = 400
  /\ result (_get_status_code_for_error INAPPROPRIATE_CONTENT w) = 400
  /\ result (_get_status_code_for_error SERVICE_UNAVAILABLE w) = 503
  /\ (forall name, result (_get_status_code_for_error (OTHER_CODE name) w) = 500)
  /\ status_code (result (upload_avatar env user_id file_content w))
     = match result (upload_image env USER_AVATAR file_content (pretty user_id) w) with
       | None => 204
       | Some e =>
           match code e with
           | INVALID_CONTENT | INAPPROPRIATE_CONTENT => 400
           | SERVICE_UNAVAILABLE => 503
           | OTHER_CODE _ => 500
           end
       end
  /\ status_code (result (delete_avatar user_id w))
     = match result (delete_image USER_AVATAR (pretty user_id) w) with
       | None => 204
       | Some e =>
           match code e with
           | INVALID_CONTENT | INAPPROPRIATE_CONTENT => 400
           | SERVICE_UNAVAILABLE => 503
           | OTHER_CODE _ => 500
           end
       end.
Proof.
  assert (Hrespond : forall data v,
            status_code (result (respond data v))
            = match data with
              | None => 204
              | Some e =>
                  match code e with
                  | INVALID_CONTENT | INAPPROPRIATE_CONTENT => 400
                  | SERVICE_UNAVAILABLE => 503
                  | OTHER_CODE _ => 500
                  end
              end).
  { intros [e|] v; [|reflexivity]. destruct e as [msg []]; reflexivity. }
  repeat split.
  - unfold upload_avatar. rewrite result_bind. apply Hrespond.
  - unfold delete_avatar. rewrite result_bind. apply Hrespond.
Qed.

(** ** Upload and delete agree on the keys *)

Lemma delete_image_calls (image_type : ImageType) (no_ext_file_name : string) (w : World) :
  s3_calls (events (delete_image image_type no_ext_file_name w))
  = map (fun ext => DeleteObject (s3.key_of (get_s3_folder image_type)
                                    (no_ext_file_name +:+ "." +:+ ext)))
        DELETE_EXTENSIONS.
Proof.
  unfold delete_image.
  rewrite events_bind, s3_calls_app.
  rewrite (for_each_delete_calls (get_s3_folder image_type)
             (fun ext => no_ext_file_name +:+ "." +:+ ext)).
  rewrite events_bind. simpl. reflexivity.
Qed.

Lemma delete_image_bucket (image_type : ImageType) (no_ext_file_name : string)
    (b : gmap string S3Object) :
  bucket (world_after (delete_image image_type no_ext_file_name (mkWorld b [])))
  = fold_left (fun m ext => delete (s3.key_of (get_s3_folder image_type)
                                      (no_ext_file_name +:+ "." +:+ ext)) m)
              DELETE_EXTENSIONS b.
Proof. reflexivity. Qed.

Lemma allowed_mime_cases (mime : string) :
  mime ∈ ALLOWED_MIME_TYPES ->
  mime = "image/png" \/ mime = "image/jpeg" \/ mime = "image/gif" \/ mime = "image/webp".
Proof.
  unfold ALLOWED_MIME_TYPES. rewrite !elem_of_union, !elem_of_singleton. tauto.
Qed.

Lemma registered_extension (mime fmt : string) :
  mime ∈ ALLOWED_MIME_TYPES ->
  pillow_format_of_mime mime = Some fmt ->
  In (lower fmt) DELETE_EXTENSIONS.
Proof.
  intros Hm Hf.
  destruct (allowed_mime_cases mime Hm) as [-> | [-> | [-> | ->]]];
    vm_compute in Hf; injection Hf as <-; vm_compute; tauto.
Qed.

(** C10: under each allowed MIME type, the lowercased name of the format that
    Pillow registers for it is one of the extensions [delete_image] sweeps; so
    for an image whose format is the one registered for its MIME type, every
    key that [upload_image] puts is a key that [delete_image] of the same type
    and name asks S3 to delete, and it is gone from the bucket once the
    deletes go through. *)
Theorem C10_uploaded_key_is_swept (env : Env) (image_type : ImageType)
    (image_content : bytes) (no_ext_file_name : string) (w : World) (image : Image) :
  parser_close env image_content = Some image ->
  (forall mime, get_format_mimetype image = Some mime -> mime ∈ ALLOWED_MIME_TYPES ->
                format image = pillow_format_of_mime mime) ->
  (forall mime fmt, mime ∈ ALLOWED_MIME_TYPES -> pillow_format_of_mime mime = Some fmt ->
                    In (lower fmt) ["png"; "jpg"; "jpeg"; "gif"; "webp"])
  /\ forall key body content_type acl,
       In (PutObject key body content_type acl)
          (events (upload_image env image_type image_content no_ext_file_name w)) ->
       (forall w', In (DeleteObject key)
                      (events (delete_image image_type no_ext_file_name w')))
       /\ (forall b, bucket (world_after (delete_image image_type no_ext_file_name
                                            (mkWorld b []))) !! key = None).
Proof.
  intros Hparse Hreg. split; [exact registered_extension|].
  intros key body ct acl Hin.
  assert (Hin' : In (PutObject key body ct acl)
                   (s3_calls (events (upload_image env image_type image_content
                                        no_ext_file_name w)))).
  { unfold s3_calls. apply List.filter_In. split; [exact Hin|reflexivity]. }
  assert (Hkey : exists ext, In ext DELETE_EXTENSIONS
                   /\ key = s3.key_of (get_s3_folder image_type)
                              (no_ext_file_name +:+ "." +:+ ext)).
  { destruct (process_image env image_type image_content) as [e| |fmt mime content] eqn:Hp.
    - destruct (upload_image_not_encoded env image_type image_content no_ext_file_name w)
        as (_ & _ & Hs & _); [rewrite Hp; discriminate|].
      rewrite Hs in Hin'. destruct Hin'.
    - destruct (upload_image_not_encoded env image_type image_content no_ext_file_name w)
        as (_ & _ & Hs & _); [rewrite Hp; discriminate|].
      rewrite Hs in Hin'. destruct Hin'.
    - destruct (upload_image_encoded env image_type image_content no_ext_file_name w
                  fmt mime content Hp) as (_ & Hr).
      destruct (process_image_encoded_inv _ _ _ _ _ _ Hp)
        as (image0 & image' & Hparse' & Hf & Hm & Hallowed & _).
      assert (image0 = image) by congruence. subst image0.
      destruct (result (moderate env image_type no_ext_file_name mime content w)).
      + destruct Hr as (_ & _ & Hs). rewrite Hs in Hin'. destruct Hin'.
      + destruct Hr as (_ & Hs). rewrite Hs in Hin'.
        destruct Hin' as [[= <- _ _ _]|[]].
        exists (lower fmt). split; [|reflexivity].
        apply (registered_extension mime); [exact Hallowed|].
        rewrite <- Hf. symmetry. apply Hreg; assumption. }
  destruct Hkey as (ext & Hext & ->). split.
  - intros w'.
    assert (Hd : In (DeleteObject (s3.key_of (get_s3_folder image_type)
                                     (no_ext_file_name +:+ "." +:+ ext)))
                   (s3_calls (events (delete_image image_type no_ext_file_name w')))).
    { rewrite delete_image_calls.
      apply (in_map (fun x => DeleteObject (s3.key_of (get_s3_folder image_type)
                                              (no_ext_file_name +:+ "." +:+ x)))).
      exact Hext. }
    unfold s3_calls in Hd. apply List.filter_In in Hd. apply Hd.
  - intros b. rewrite delete_image_bucket.
    unfold DELETE_EXTENSIONS in *. simpl fold_left.
    simpl in Hext.
    destruct Hext as [<- | [<- | [<- | [<- | [<- | []]]]]];
      repeat (rewrite lookup_delete; case_decide; [reflexivity|]);
      congruence.
Qed.

Lemma C10_witness :
  (forall mime fmt, mime ∈ ALLOWED_MIME_TYPES -> pillow_format_of_mime mime = Some fmt ->
                    In (lower fmt) ["png"; "jpg"; "jpeg"; "gif"; "webp"])
  /\ forall key body content_type acl,
       In (PutObject key body content_type acl)
          (events (upload_image
                     (sample_env false (mkImage (Some "JPEG") (Some "image/jpeg") 300 200) None)
                     USER_AVATAR [] "1001" empty_world)) ->
       (forall w', In (DeleteObject key) (events (delete_image USER_AVATAR "1001" w')))
       /\ (forall b, bucket (world_after (delete_image USER_AVATAR "1001" (mkWorld b [])))
                       !! key = None).
Proof.
  apply (C10_uploaded_key_is_swept
           (sample_env false (mkImage (Some "JPEG") (Some "image/jpeg") 300 200) None)
           USER_AVATAR [] "1001" empty_world
           (mkImage (Some "JPEG") (Some "image/jpeg") 300 200)).
  - reflexivity.
  - intros mime [= <-] _. reflexivity.
Defined.

(** ** The resize arithmetic *)

(** Over the rationals the longer side lands on the cap. *)
Lemma spec_new_size_longer_side (cap w h : Z) :
  0 < w -> 0 < h -> 0 <= cap ->
  Z.max (fst (spec_new_size cap w h)) (snd (spec_new_size cap w h)) = cap.
Proof.
  intros Hw Hh Hc. unfold spec_new_size; simpl.
  destruct (Z.max_spec w h) as [[Hlt ->]|[Hle ->]].
  - rewrite (Z.mul_comm h cap), Z.div_mul by lia.
    apply Z.max_r. apply Z.div_le_upper_bound; nia.
  - rewrite (Z.mul_comm w cap), Z.div_mul by lia.
    apply Z.max_l. apply Z.div_le_upper_bound; nia.
Qed.

(** The spec's own example: a 2000 by 1000 avatar becomes 512 by 256. *)
Example new_size_2000_1000 : new_size 512 2000 1000 = Some (512, 256).
Proof. vm_compute. reflexivity. Qed.

(** C1: on a 784 by 784 avatar (cap 512) the code asks Pillow for 511 by 511:
    [512 / 784] is rounded to a binary64 number, its product with 784 is
    511.99999999999994, and [int] truncates it.  The longer side of the result
    is not the cap, and the size is not the [floor(width*scale)] of the spec,
    which is 512 by 512. *)
Theorem C1_resize_falls_short_of_cap :
  new_size (get_max_single_dimension_size USER_AVATAR) 784 784 = Some (511, 511)
  /\ spec_new_size (get_max_single_dimension_size USER_AVATAR) 784 784 = (512, 512)
  /\ forall env : Env,
       resize_if_too_large env USER_AVATAR (mkImage (Some "PNG") (Some "image/png") 784 784)
       = image_resize env (mkImage (Some "PNG") (Some "image/png") 784 784) (511, 511).
Proof.
  split; [vm_compute; reflexivity|].
  split; [vm_compute; reflexivity|].
  intros env. unfold resize_if_too_large.
  change (width (mkImage (Some "PNG") (Some "image/png") 784 784)) with 784.
  change (height (mkImage (Some "PNG") (Some "image/png") 784 784)) with 784.
  change (get_max_single_dimension_size USER_AVATAR) with 512.
  replace (new_size 512 784 784) with (Some (511, 511)) by (vm_compute; reflexivity).
  reflexivity.
Qed.

(** * Further properties of the code *)

(** ** app/adapters/s3.py *)

Ltac run_s3 :=
  unfold s3.upload, s3.download, s3.delete,
    s3_client.put_object, s3_client.get_object, s3_client.delete_object,
    s3_client.next_fault, s3_client.set_bucket, s3_client.get_bucket,
    logging, bind, ret, emit, result, world_after, events;
  cbn [faults bucket fst snd].

(** What [s3.upload] does to the world: with the provider going through, the
    object is stored under [directory/file_name]; on a provider error the
    bucket stays as it is and one error is logged.  Either way the fault is
    consumed and the caller gets nothing back. *)
Lemma s3_upload_world (body : bytes) (file_name directory : string)
    (content_type acl : option string) (b : gmap string S3Object)
    (fs : list (option BotoError)) :
  world_after (s3.upload body file_name directory content_type acl (mkWorld b fs))
  = match fs with
    | [] => mkWorld (<[s3.key_of directory file_name := mkS3Object body content_type]> b) []
    | None :: fs' =>
        mkWorld (<[s3.key_of directory file_name := mkS3Object body content_type]> b) fs'
    | Some _ :: fs' => mkWorld b fs'
    end.
Proof. destruct fs as [|[e|] fs']; reflexivity. Qed.

Lemma s3_delete_world (file_name directory : string) (b : gmap string S3Object)
    (fs : list (option BotoError)) :
  world_after (s3.delete file_name directory (mkWorld b fs))
  = match fs with
    | [] => mkWorld (delete (s3.key_of directory file_name) b) []
    | None :: fs' => mkWorld (delete (s3.key_of directory file_name) b) fs'
    | Some _ :: fs' => mkWorld b fs'
    end.
Proof. destruct fs as [|[[]|] fs']; reflexivity. Qed.

Lemma s3_download_run (file_name directory : string) (b : gmap string S3Object)
    (fs : list (option BotoError)) :
  s3.download file_name directory (mkWorld b fs)
  = match fs with
    | Some NoSuchKey :: fs' => (None, mkWorld b fs', [GetObject (s3.key_of directory file_name)])
    | Some _ :: fs' =>
        (None, mkWorld b fs',
         [GetObject (s3.key_of directory file_name);
          Log ERROR "Failed to download file from S3"])
    | _ =>
        (match b !! s3.key_of directory file_name with
         | Some obj => Some (s3.mkDownloadResponse (Body obj) (ContentType obj))
         | None => None
         end,
         mkWorld b (tl fs),
         [GetObject (s3.key_of directory file_name)])
    end.
Proof.
  destruct fs as [|[[]|] fs']; try reflexivity;
    run_s3; destruct (b !! s3.key_of directory file_name); reflexivity.
Qed.

(** X1: what [upload] stores under a directory and file name, [download] of
    the same directory and file name returns, body and content type, when the
    provider lets both calls through. *)
Theorem X1_s3_upload_then_download (body : bytes) (file_name directory content_type : string)
    (acl : option string) (b : gmap string S3Object) :
  result (s3.download file_name directory
            (world_after (s3.upload body file_name directory (Some content_type) acl
                            (mkWorld b []))))
  = Some (s3.mkDownloadResponse body (Some content_type)).
Proof.
  rewrite s3_upload_world, s3_download_run. unfold result; simpl.
  rewrite lookup_insert_eq. reflexivity.
Qed.

Lemma s3_upload_refused (body : bytes) (file_name directory : string)
    (content_type acl : option string) (b : gmap string S3Object)
    (exc : BotoError) (fs : list (option BotoError)) :
  s3.upload body file_name directory content_type acl (mkWorld b (Some exc :: fs))
  = (tt, mkWorld b fs,
     [PutObject (s3.key_of directory file_name) body content_type acl;
      Log ERROR "Failed to upload file to S3"]).
Proof. reflexivity. Qed.

(** X2: when the provider raises on the put, [upload] still returns normally:
    the bucket is unchanged and the only trace of the failure is one logged
    error. *)
Theorem X2_s3_upload_swallows_provider_error (body : bytes) (file_name directory : string)
    (content_type acl : option string) (b : gmap string S3Object)
    (exc : BotoError) (fs : list (option BotoError)) :
  s3.upload body file_name directory content_type acl (mkWorld b (Some exc :: fs))
  = (tt, mkWorld b fs,
     [PutObject (s3.key_of directory file_name) body content_type acl;
      Log ERROR "Failed to upload file to S3"]).
Proof. apply s3_upload_refused. Qed.


(** X4: after a [delete] that the provider lets through, [download] of the
    same directory and file name finds nothing. *)
Theorem X4_s3_delete_then_download (file_name directory : string)
    (b : gmap string S3Object) :
  result (s3.download file_name directory
            (world_after (s3.delete file_name directory (mkWorld b [])))) = None.
Proof.
  rewrite s3_delete_world, s3_download_run. unfold result; simpl.
  rewrite lookup_delete_eq. reflexivity.
Qed.

(** X5: [delete] of a key that is not in the bucket changes nothing, and a
    second [delete] of the same key changes nothing more. *)
Theorem X5_s3_delete_idempotent (file_name directory : string)
    (b : gmap string S3Object) :
  (b !! s3.key_of directory file_name = None ->
   bucket (world_after (s3.delete file_name directory (mkWorld b []))) = b)
  /\ bucket (world_after (s3.delete file_name directory
                            (world_after (s3.delete file_name directory (mkWorld b [])))))
     = bucket (world_after (s3.delete file_name directory (mkWorld b []))).
Proof.
  repeat (rewrite s3_delete_world; simpl). split.
  - intros Hb. apply delete_id. exact Hb.
  - apply delete_delete_eq.
Qed.

(** X6: a second [upload] under the same directory and file name replaces the
    first: the bucket is the one the second upload alone would have made. *)
Theorem X6_s3_upload_overwrites (body1 body2 : bytes) (file_name directory : string)
    (ct1 ct2 acl1 acl2 : option string) (b : gmap string S3Object) :
  bucket (world_after (s3.upload body2 file_name directory ct2 acl2
                         (world_after (s3.upload body1 file_name directory ct1 acl1
                                         (mkWorld b [])))))
  = bucket (world_after (s3.upload body2 file_name directory ct2 acl2 (mkWorld b []))).
Proof.
  repeat (rewrite s3_upload_world; simpl).
  apply insert_insert_eq.
Qed.

(** X7: [upload] and [delete] touch one key only: whatever the provider does,
    the object under any other key is the same before and after. *)
Theorem X7_s3_other_keys_untouched (body : bytes) (file_name directory : string)
    (content_type acl : option string) (w : World) (key : string) :
  key <> s3.key_of directory file_name ->
  bucket (world_after (s3.upload body file_name directory content_type acl w)) !! key
    = bucket w !! key
  /\ bucket (world_after (s3.delete file_name directory w)) !! key = bucket w !! key.
Proof.
  intros Hne. destruct w as [b fs].
  rewrite s3_upload_world, s3_delete_world.
  split; destruct fs as [|[e|] fs']; simpl; try reflexivity.
  - apply lookup_insert_ne; congruence.
  - apply lookup_insert_ne; congruence.
  - apply lookup_delete_ne; congruence.
  - apply lookup_delete_ne; congruence.
Qed.

Lemma X7_witness :
  bucket (world_after (s3.upload [] "1001.png" "avatars" None None empty_world))
    !! "avatars/1002.png"
    = bucket empty_world !! "avatars/1002.png"
  /\ bucket (world_after (s3.delete "1001.png" "avatars" empty_world)) !! "avatars/1002.png"
     = bucket empty_world !! "avatars/1002.png".
Proof.
  apply (X7_s3_other_keys_untouched [] "1001.png" "avatars" None None empty_world
           "avatars/1002.png").
  vm_compute. discriminate.
Defined.

(** ** app/usecases/images.py *)

(** X8: [should_disallow_upload] holds exactly when one of the labels is,
    letter for letter, one of the eight disallowed names; in particular it
    does not hold of the empty list. *)
Theorem X8_should_disallow_upload_iff (moderation_labels : list string) :
  (should_disallow_upload moderation_labels = true
   <-> exists l, In l moderation_labels
         /\ (l = "Explicit Nudity" \/ l = "Explicit Sexual Activity" \/ l = "Sex Toys"
             \/ l = "Obstructed Intimate Parts" \/ l = "Self-Harm" \/ l = "Blood & Gore"
             \/ l = "Death and Emaciation" \/ l = "Hate Symbols"))
  /\ should_disallow_upload [] = false.
Proof.
  split; [|reflexivity].
  unfold should_disallow_upload. rewrite existsb_exists.
  split; intros (l & Hin & Hl); exists l; (split; [exact Hin|]).
  - apply bool_decide_eq_true in Hl. unfold DISALLOWED_MODERATION_LABELS in Hl.
    rewrite !elem_of_union, !elem_of_singleton in Hl. tauto.
  - apply bool_decide_eq_true. unfold DISALLOWED_MODERATION_LABELS.
    rewrite !elem_of_union, !elem_of_singleton. tauto.
Qed.

Lemma moderate_skipped (env : Env) (image_type : ImageType) (no_ext_file_name mime : string)
    (content : bytes) (w : World) :
  SHOULD_FILTER_INAPPROPRIATE_CONTENT env = false
  \/ mime = "image/gif" \/ image_type = SCREENSHOT ->
  moderate env image_type no_ext_file_name mime content w = (None, w, []).
Proof.
  intros H. unfold moderate.
  destruct (SHOULD_FILTER_INAPPROPRIATE_CONTENT env); [|reflexivity].
  destruct H as [H|[->| ->]]; [discriminate| |].
  - reflexivity.
  - rewrite andb_false_r. reflexivity.
Qed.

Lemma moderate_consulted (env : Env) (image_type : ImageType) (no_ext_file_name mime : string)
    (content : bytes) (w : World) :
  SHOULD_FILTER_INAPPROPRIATE_CONTENT env = true ->
  mime <> "image/gif" -> image_type <> SCREENSHOT ->
  moderate env image_type no_ext_file_name mime content w
  = match detect_moderation_labels env content with
    | None => (Some (mkError "Service Unavailable" SERVICE_UNAVAILABLE), w,
               [DetectModerationLabels content])
    | Some labels =>
        if should_disallow_upload labels
        then (Some (mkError "Inappropriate Content" INAPPROPRIATE_CONTENT), w,
              [DetectModerationLabels content;
               Log WARNING "Rejected image due to moderation labels"])
        else (None, w, [DetectModerationLabels content])
    end.
Proof.
  intros Hflag Hmime Hty. unfold moderate. rewrite Hflag.
  apply not_video_mime in Hmime. apply is_screenshot_false in Hty.
  rewrite Hmime, Hty. simpl andb. cbv iota.
  unfold rekognition_detect_moderation_labels, bind, emit, ret, logging.
  destruct (detect_moderation_labels env content) as [labels|]; [|reflexivity].
  destruct (should_disallow_upload labels); reflexivity.
Qed.

(** The run of [upload_image] once the try block has produced the encoded
    image: the outcome of the moderation step, and after a pass the upload
    and the closing log entry. *)
Lemma upload_image_after_encoding (env : Env) (image_type : ImageType)
    (image_content : bytes) (no_ext_file_name : string) (w : World)
    (fmt mime : string) (content : bytes) :
  process_image env image_type image_content = Encoded fmt mime content ->
  upload_image env image_type image_content no_ext_file_name w
  = match result (moderate env image_type no_ext_file_name mime content w) with
    | Some e => (Some e, w, events (moderate env image_type no_ext_file_name mime content w))
    | None =>
        (None,
         world_after (s3.upload content (no_ext_file_name +:+ "." +:+ lower fmt)
                        (get_s3_folder image_type) (Some mime) None w),
         events (moderate env image_type no_ext_file_name mime content w)
         ++ events (s3.upload content (no_ext_file_name +:+ "." +:+ lower fmt)
                      (get_s3_folder image_type) (Some mime) None w)
         ++ [Log INFO "Uploaded image"])
    end.
Proof.
  intros Hp. unfold upload_image. rewrite Hp.
  destruct (moderate_run env image_type no_ext_file_name mime content w) as (Hw & _).
  rewrite run_bind.
  destruct (moderate env image_type no_ext_file_name mime content w) as [[res wv] evs].
  unfold result, world_after, events in *; simpl in *. subst wv.
  destruct res as [e|]; simpl.
  - rewrite app_nil_r. reflexivity.
  - rewrite !run_bind. unfold result, world_after, events, logging, emit, ret; simpl.
    reflexivity.
Qed.

(** X9: when the moderation step applies (flag set, not image/gif, not a
    screenshot) and the moderation service is unavailable, [upload_image]
    returns "Service Unavailable" of kind [SERVICE_UNAVAILABLE] after that one
    call; nothing else happens and the world is left as it was. *)
Theorem X9_moderation_unavailable (env : Env) (image_type : ImageType)
    (image_content : bytes) (no_ext_file_name : string) (w : World)
    (fmt mime : string) (content : bytes) :
  process_image env image_type image_content = Encoded fmt mime content ->
  SHOULD_FILTER_INAPPROPRIATE_CONTENT env = true ->
  mime <> "image/gif" -> image_type <> SCREENSHOT ->
  detect_moderation_labels env content = None ->
  upload_image env image_type image_content no_ext_file_name w
  = (Some (mkError "Service Unavailable" SERVICE_UNAVAILABLE), w,
     [DetectModerationLabels content]).
Proof.
  intros Hp Hflag Hmime Hty Hdet.
  rewrite (upload_image_after_encoding _ _ _ _ _ _ _ _ Hp).
  rewrite (moderate_consulted _ _ _ _ _ _ Hflag Hmime Hty), Hdet. reflexivity.
Qed.

Lemma X9_witness :
  upload_image (sample_env true (mkImage (Some "PNG") (Some "image/png") 300 200) None)
    USER_AVATAR [] "1001" empty_world
  = (Some (mkError "Service Unavailable" SERVICE_UNAVAILABLE), empty_world,
     [DetectModerationLabels []]).
Proof.
  apply (X9_moderation_unavailable
           (sample_env true (mkImage (Some "PNG") (Some "image/png") 300 200) None)
           USER_AVATAR [] "1001" empty_world "PNG" "image/png" []).
  - vm_compute. reflexivity.
  - reflexivity.
  - discriminate.
  - discriminate.
  - reflexivity.
Defined.

(** X10: when the moderation step applies and one of the returned labels is
    disallowed, [upload_image] returns "Inappropriate Content" of kind
    [INAPPROPRIATE_CONTENT], logs one warning after the moderation call, and
    leaves the world as it was. *)
Theorem X10_disallowed_label_rejects (env : Env) (image_type : ImageType)
    (image_content : bytes) (no_ext_file_name : string) (w : World)
    (fmt mime : string) (content : bytes) (labels : list string) :
  process_image env image_type image_content = Encoded fmt mime content ->
  SHOULD_FILTER_INAPPROPRIATE_CONTENT env = true ->
  mime <> "image/gif" -> image_type <> SCREENSHOT ->
  detect_moderation_labels env content = Some labels ->
  should_disallow_upload labels = true ->
  upload_image env image_type image_content no_ext_file_name w
  = (Some (mkError "Inappropriate Content" INAPPROPRIATE_CONTENT), w,
     [DetectModerationLabels content; Log WARNING "Rejected image due to moderation labels"]).
Proof.
  intros Hp Hflag Hmime Hty Hdet Hbad.
  rewrite (upload_image_after_encoding _ _ _ _ _ _ _ _ Hp).
  rewrite (moderate_consulted _ _ _ _ _ _ Hflag Hmime Hty), Hdet, Hbad. reflexivity.
Qed.

Lemma X10_witness :
  upload_image (sample_env true (mkImage (Some "PNG") (Some "image/png") 300 200)
                  (Some ["Smoking"; "Blood & Gore"]))
    USER_AVATAR [] "1001" empty_world
  = (Some (mkError "Inappropriate Content" INAPPROPRIATE_CONTENT), empty_world,
     [DetectModerationLabels []; Log WARNING "Rejected image due to moderation labels"]).
Proof.
  apply (X10_disallowed_label_rejects
           (sample_env true (mkImage (Some "PNG") (Some "image/png") 300 200)
              (Some ["Smoking"; "Blood & Gore"]))
           USER_AVATAR [] "1001" empty_world "PNG" "image/png" []
           ["Smoking"; "Blood & Gore"]).
  - vm_compute. reflexivity.
  - reflexivity.
  - discriminate.
  - discriminate.
  - reflexivity.
  - vm_compute. reflexivity.
Defined.

Lemma moderate_result_cases (env : Env) (image_type : ImageType)
    (no_ext_file_name mime : string) (content : bytes) (w : World) :
  result (moderate env image_type no_ext_file_name mime content w) = None
  \/ result (moderate env image_type no_ext_file_name mime content w)
     = Some (mkError "Service Unavailable" SERVICE_UNAVAILABLE)
  \/ result (moderate env image_type no_ext_file_name mime content w)
     = Some (mkError "Inappropriate Content" INAPPROPRIATE_CONTENT).
Proof.
  unfold moderate, rekognition_detect_moderation_labels, bind, ret, emit, logging, result.
  destruct (SHOULD_FILTER_INAPPROPRIATE_CONTENT env); [|left; reflexivity].
  destruct (negb (bool_decide (mime ∈ VIDEO_MIME_TYPES)) && negb (is_screenshot image_type));
    [|left; reflexivity].
  destruct (detect_moderation_labels env content) as [labels|]; [|right; left; reflexivity].
  destruct (should_disallow_upload labels); [right; right|left]; reflexivity.
Qed.

Lemma process_image_rejected_cases (env : Env) (image_type : ImageType)
    (image_content : bytes) (e : Error) :
  process_image env image_type image_content = Rejected e ->
  e = mkError "Invalid Image Format" INVALID_CONTENT
  \/ e = mkError "Invalid Image Content Type" INVALID_CONTENT.
Proof.
  unfold process_image.
  destruct (parser_close env image_content) as [image|]; [|discriminate].
  destruct (format image) as [f|]; [|intros [= <-]; left; reflexivity].
  destruct (get_format_mimetype image) as [m|]; [|intros [= <-]; right; reflexivity].
  destruct (negb (bool_decide (m ∈ ALLOWED_MIME_TYPES))); [intros [= <-]; right; reflexivity|].
  destruct (resize_if_too_large env image_type image) as [image'|]; [|discriminate].
  destruct (image_save env image' f); discriminate.
Qed.

(** X11: the errors of [upload_image] are five: "Invalid Image Format",
    "Invalid Image Content Type" and "Invalid Image" of kind
    [INVALID_CONTENT], "Service Unavailable" and "Inappropriate Content"; so
    [upload_avatar] answers 204, 400 or 503 and never 500. *)
Theorem X11_upload_errors_and_statuses (env : Env) (user_id : Z) (image_type : ImageType)
    (image_content : bytes) (no_ext_file_name : string) (w : World) :
  (forall e, result (upload_image env image_type image_content no_ext_file_name w) = Some e ->
     e = mkError "Invalid Image Format" INVALID_CONTENT
     \/ e = mkError "Invalid Image Content Type" INVALID_CONTENT
     \/ e = mkError "Invalid Image" INVALID_CONTENT
     \/ e = mkError "Service Unavailable" SERVICE_UNAVAILABLE
     \/ e = mkError "Inappropriate Content" INAPPROPRIATE_CONTENT)
  /\ (status_code (result (upload_avatar env user_id image_content w)) = 204
      \/ status_code (result (upload_avatar env user_id image_content w)) = 400
      \/ status_code (result (upload_avatar env user_id image_content w)) = 503).
Proof.
  assert (Herr : forall ty name e,
            result (upload_image env ty image_content name w) = Some e ->
            e = mkError "Invalid Image Format" INVALID_CONTENT
            \/ e = mkError "Invalid Image Content Type" INVALID_CONTENT
            \/ e = mkError "Invalid Image" INVALID_CONTENT
            \/ e = mkError "Service Unavailable" SERVICE_UNAVAILABLE
            \/ e = mkError "Inappropriate Content" INAPPROPRIATE_CONTENT).
  { intros ty name e He.
    destruct (process_image env ty image_content) as [e0| |fmt mime content] eqn:Hp.
    - unfold upload_image in He. rewrite Hp in He. injection He as <-.
      destruct (process_image_rejected_cases _ _ _ _ Hp); auto.
    - unfold upload_image in He. rewrite Hp in He. injection He as <-. auto.
    - rewrite (upload_image_after_encoding _ _ _ _ _ _ _ _ Hp) in He.
      destruct (moderate_result_cases env ty name mime content w) as [H|[H|H]];
        rewrite H in He; [discriminate| |]; injection He as <-; auto 6. }
  split; [apply Herr|].
  unfold upload_avatar. rewrite result_bind.
  destruct (result (upload_image env USER_AVATAR image_content (pretty user_id) w))
    as [e|] eqn:He; [|left; reflexivity].
  destruct (Herr _ _ _ He) as [->|[->|[->|[->| ->]]]]; simpl; auto.
Qed.

(** X12: [upload_image] returns no error exactly when the try block produced
    the encoded image and the moderation step either does not apply (flag
    unset, image/gif, screenshot) or answered with labels none of which is
    disallowed.  What the provider does with the put plays no part. *)
Theorem X12_upload_succeeds_iff (env : Env) (image_type : ImageType)
    (image_content : bytes) (no_ext_file_name : string) (w : World) :
  result (upload_image env image_type image_content no_ext_file_name w) = None
  <-> exists fmt mime content,
        process_image env image_type image_content = Encoded fmt mime content
        /\ (SHOULD_FILTER_INAPPROPRIATE_CONTENT env = false
            \/ mime = "image/gif"
            \/ image_type = SCREENSHOT
            \/ exists labels, detect_moderation_labels env content = Some labels
                              /\ should_disallow_upload labels = false).
Proof.
  assert (Hcases : forall mime,
            (SHOULD_FILTER_INAPPROPRIATE_CONTENT env = false
             \/ mime = "image/gif" \/ image_type = SCREENSHOT)
            \/ (SHOULD_FILTER_INAPPROPRIATE_CONTENT env = true
                /\ mime <> "image/gif" /\ image_type <> SCREENSHOT)).
  { intros mime. destruct (SHOULD_FILTER_INAPPROPRIATE_CONTENT env); [|auto].
    destruct (string_dec mime "image/gif"); [auto|].
    destruct image_type; auto; right; repeat split; congruence. }
  split.
  - intros Hok.
    destruct (process_image env image_type image_content) as [e| |fmt mime content] eqn:Hp.
    + unfold upload_image in Hok. rewrite Hp in Hok. discriminate.
    + unfold upload_image in Hok. rewrite Hp in Hok. discriminate.
    + exists fmt, mime, content. split; [reflexivity|].
      rewrite (upload_image_after_encoding _ _ _ _ _ _ _ _ Hp) in Hok.
      destruct (Hcases mime) as [Hskip|(Hflag & Hmime & Hty)]; [tauto|].
      rewrite (moderate_consulted _ _ _ _ _ _ Hflag Hmime Hty) in Hok.
      destruct (detect_moderation_labels env content) as [labels|]; [|discriminate].
      destruct (should_disallow_upload labels) eqn:Hbad; [discriminate|].
      right; right; right. exists labels. auto.
  - intros (fmt & mime & content & Hp & Hpass).
    rewrite (upload_image_after_encoding _ _ _ _ _ _ _ _ Hp).
    destruct (Hcases mime) as [Hskip|(Hflag & Hmime & Hty)].
    + rewrite (moderate_skipped _ _ _ _ _ _ Hskip). reflexivity.
    + rewrite (moderate_consulted _ _ _ _ _ _ Hflag Hmime Hty).
      destruct Hpass as [H|[H|[H|(labels & Hdet & Hgood)]]]; try congruence.
      rewrite Hdet, Hgood. reflexivity.
Qed.

(** X13: a put that the provider refuses does not make [upload_image] fail:
    when the run reports success although the provider raised on its call,
    the bucket is unchanged, the adapter's error is logged, and so is
    "Uploaded image". *)
Theorem X13_upload_reports_success_on_failed_put (env : Env) (image_type : ImageType)
    (image_content : bytes) (no_ext_file_name : string)
    (b : gmap string S3Object) (exc : BotoError) (fs : list (option BotoError)) :
  result (upload_image env image_type image_content no_ext_file_name
            (mkWorld b (Some exc :: fs))) = None ->
  world_after (upload_image env image_type image_content no_ext_file_name
                 (mkWorld b (Some exc :: fs))) = mkWorld b fs
  /\ In (Log ERROR "Failed to upload file to S3")
        (events (upload_image env image_type image_content no_ext_file_name
                   (mkWorld b (Some exc :: fs))))
  /\ In (Log INFO "Uploaded image")
        (events (upload_image env image_type image_content no_ext_file_name
                   (mkWorld b (Some exc :: fs)))).
Proof.
  intros Hok.
  destruct (process_image env image_type image_content) as [e| |fmt mime content] eqn:Hp.
  - unfold upload_image in Hok. rewrite Hp in Hok. discriminate.
  - unfold upload_image in Hok. rewrite Hp in Hok. discriminate.
  - rewrite (upload_image_after_encoding _ _ _ _ _ _ _ _ Hp) in *.
    destruct (result (moderate env image_type no_ext_file_name mime content
                        (mkWorld b (Some exc :: fs)))); [discriminate|].
    rewrite s3_upload_refused.
    unfold world_after, events; simpl. split; [reflexivity|].
    split; apply in_or_app; right; simpl; auto.
Qed.

Lemma X13_witness :
  world_after (upload_image (sample_env false (mkImage (Some "PNG") (Some "image/png") 300 200) None)
                 USER_AVATAR [] "1001" (mkWorld ∅ [Some ClientError])) = mkWorld ∅ []
  /\ In (Log ERROR "Failed to upload file to S3")
        (events (upload_image (sample_env false (mkImage (Some "PNG") (Some "image/png") 300 200) None)
                   USER_AVATAR [] "1001" (mkWorld ∅ [Some ClientError])))
  /\ In (Log INFO "Uploaded image")
        (events (upload_image (sample_env false (mkImage (Some "PNG") (Some "image/png") 300 200) None)
                   USER_AVATAR [] "1001" (mkWorld ∅ [Some ClientError]))).
Proof.
  apply (X13_upload_reports_success_on_failed_put
           (sample_env false (mkImage (Some "PNG") (Some "image/png") 300 200) None)
           USER_AVATAR [] "1001" ∅ ClientError []).
  vm_compute. reflexivity.
Defined.

(** X14: when Pillow raises while decoding, or while resizing or saving an
    image that passed validation, [upload_image] returns "Invalid Image" of
    kind [INVALID_CONTENT]; the run logs that one exception and does nothing
    else. *)
Theorem X14_pillow_exception_is_invalid_image (env : Env) (image_type : ImageType)
    (image_content : bytes) (no_ext_file_name : string) (w : World) :
  parser_close env image_content = None
  \/ (exists image fmt mime,
        parser_close env image_content = Some image
        /\ format image = Some fmt
        /\ get_format_mimetype image = Some mime
        /\ mime ∈ ALLOWED_MIME_TYPES
        /\ (resize_if_too_large env image_type image = None
            \/ exists image', resize_if_too_large env image_type image = Some image'
                              /\ image_save env image' fmt = None)) ->
  upload_image env image_type image_content no_ext_file_name w
  = (Some (mkError "Invalid Image" INVALID_CONTENT), w,
     [Log EXCEPTION "Failed to process image"]).
Proof.
  intros H.
  assert (Hp : process_image env image_type image_content = Raised).
  { unfold process_image.
    destruct H as [->|(image & fmt & mime & -> & -> & -> & Hallowed & Hraise)];
      [reflexivity|].
    rewrite bool_decide_eq_true_2 by exact Hallowed. simpl.
    destruct Hraise as [->|(image' & -> & ->)]; reflexivity. }
  unfold upload_image. rewrite Hp. reflexivity.
Qed.

Lemma X14_witness :
  upload_image (mkEnv false "default.png" (fun _ => None)
                  (fun _ _ => None) (fun _ _ => None) (fun _ => None))
    USER_AVATAR [] "1001" empty_world
  = (Some (mkError "Invalid Image" INVALID_CONTENT), empty_world,
     [Log EXCEPTION "Failed to process image"]).
Proof.
  apply (X14_pillow_exception_is_invalid_image
           (mkEnv false "default.png" (fun _ => None)
              (fun _ _ => None) (fun _ _ => None) (fun _ => None))
           USER_AVATAR [] "1001" empty_world).
  left. reflexivity.
Defined.

(** ** app/api/v1/avatars.py *)

(** The run of [get_avatar] on a path that passes the traversal check, in
    terms of its one or two downloads. *)
Lemma get_avatar_run (env : Env) (file_path : string) (w : World) :
  contains ".." file_path = false ->
  contains "/" file_path = false ->
  let name := if endswith file_path ".png" then file_path else file_path +:+ ".png" in
  let d1 := s3.download name "avatars" w in
  let d2 := s3.download (DEFAULT_AVATAR_FILENAME env) "avatars" (world_after d1) in
  get_avatar env file_path w
  = match result d1 with
    | Some r =>
        (mkResponse 200 (Raw (s3.body r)) (s3.content_type r), world_after d1,
         events d1 ++ [Log DEBUG "Served user avatar"])
    | None =>
        match result d2 with
        | Some r =>
            (mkResponse 200 (Raw (s3.body r)) (s3.content_type r), world_after d2,
             events d1 ++ events d2 ++ [Log DEBUG "Served user avatar"])
        | None =>
            (mkResponse 404 NoContent None, world_after d2,
             events d1 ++ events d2 ++
             [Log WARNING
                "Failed to serve non-existent user avatar and default avatar is missing"])
        end
    end.
Proof.
  intros H1 H2 name d1 d2. subst d1 d2 name. unfold get_avatar. rewrite H1, H2.
  change (false || false) with false. cbv iota.
  replace (if negb (endswith file_path ".png") then file_path +:+ ".png" else file_path)
    with (if endswith file_path ".png" then file_path else file_path +:+ ".png")
    by (destruct (endswith file_path ".png"); reflexivity).
  rewrite run_bind.
  destruct (s3.download _ "avatars" w) as [[r1 w1] e1].
  unfold result, world_after, events; cbn [fst snd].
  destruct r1 as [r|]; [reflexivity|].
  fold (@result (option s3.DownloadResponse)) (@world_after (option s3.DownloadResponse))
       (@events (option s3.DownloadResponse)).
  rewrite run_bind.
  destruct (s3.download (DEFAULT_AVATAR_FILENAME env) "avatars" w1) as [[r2 w2] e2].
  unfold result, world_after, events; cbn [fst snd].
  destruct r2 as [r|]; reflexivity.
Qed.

Lemma s3_download_bucket (file_name directory : string) (w : World) :
  bucket (world_after (s3.download file_name directory w)) = bucket w.
Proof.
  destruct w as [b fs]. rewrite s3_download_run.
  destruct fs as [|[[]|] fs']; reflexivity.
Qed.

Lemma get_avatar_fault_free (env : Env) (file_path : string)
    (b : gmap string S3Object) :
  contains ".." file_path = false ->
  contains "/" file_path = false ->
  result (get_avatar env file_path (mkWorld b []))
  = match b !! ("avatars/" +:+
                (if endswith file_path ".png" then file_path else file_path +:+ ".png")) with
    | Some obj => mkResponse 200 (Raw (Body obj)) (ContentType obj)
    | None =>
        match b !! ("avatars/" +:+ DEFAULT_AVATAR_FILENAME env) with
        | Some obj => mkResponse 200 (Raw (Body obj)) (ContentType obj)
        | None => mkResponse 404 NoContent None
        end
    end.
Proof.
  intros H1 H2. rewrite (get_avatar_run env file_path _ H1 H2). cbv zeta.
  rewrite !s3_download_run. cbn [result world_after fst snd tl].
  change (s3.key_of "avatars" ?x) with ("avatars/" +:+ x).
  destruct (b !! _) as [obj|]; [reflexivity|].
  rewrite s3_download_run. cbn [result world_after fst snd tl].
  change (s3.key_of "avatars" ?x) with ("avatars/" +:+ x).
  destruct (b !! _) as [obj|]; reflexivity.
Qed.

(** X15: with the provider going through, [get_avatar] on a path that passes
    the traversal check serves the object stored under the requested name (with
    [.png] appended unless already there), else the object stored under the
    default avatar's name, each with its stored content type, and answers 404
    only when both are missing. *)
Theorem X15_get_avatar_serves_requested_then_default (env : Env) (file_path : string)
    (b : gmap string S3Object) :
  contains ".." file_path = false ->
  contains "/" file_path = false ->
  result (get_avatar env file_path (mkWorld b []))
  = match b !! ("avatars/" +:+
                (if endswith file_path ".png" then file_path else file_path +:+ ".png")) with
    | Some obj => mkResponse 200 (Raw (Body obj)) (ContentType obj)
    | None =>
        match b !! ("avatars/" +:+ DEFAULT_AVATAR_FILENAME env) with
        | Some obj => mkResponse 200 (Raw (Body obj)) (ContentType obj)
        | None => mkResponse 404 NoContent None
        end
    end.
Proof. apply get_avatar_fault_free. Qed.

Lemma X15_witness :
  result (get_avatar (sample_env false (mkImage None None 0 0) None) "1001"
            (mkWorld {[ "avatars/default.png" := mkS3Object [] (Some "image/png") ]} []))
  = match ({[ "avatars/default.png" := mkS3Object [] (Some "image/png") ]}
             : gmap string S3Object)
          !! ("avatars/" +:+ (if endswith "1001" ".png" then "1001" else "1001" +:+ ".png")) with
    | Some obj => mkResponse 200 (Raw (Body obj)) (ContentType obj)
    | None =>
        match ({[ "avatars/default.png" := mkS3Object [] (Some "image/png") ]}
                 : gmap string S3Object)
              !! ("avatars/" +:+ DEFAULT_AVATAR_FILENAME
                                   (sample_env false (mkImage None None 0 0) None)) with
        | Some obj => mkResponse 200 (Raw (Body obj)) (ContentType obj)
        | None => mkResponse 404 NoContent None
        end
    end.
Proof.
  apply (X15_get_avatar_serves_requested_then_default
           (sample_env false (mkImage None None 0 0) None) "1001"
           {[ "avatars/default.png" := mkS3Object [] (Some "image/png") ]});
    reflexivity.
Defined.



(** X17: [get_avatar] only reads: in every world the bucket is unchanged, and
    its S3 calls are one fetch of the requested name followed, only when that
    fetch yields nothing, by one fetch of the default avatar. *)
Theorem X17_get_avatar_only_reads (env : Env) (file_path : string) (w : World) :
  contains ".." file_path = false ->
  contains "/" file_path = false ->
  bucket (world_after (get_avatar env file_path w)) = bucket w
  /\ s3_calls (events (get_avatar env file_path w))
     = GetObject ("avatars/" +:+
                    (if endswith file_path ".png" then file_path else file_path +:+ ".png"))
       :: match result (s3.download
                          (if endswith file_path ".png" then file_path
                           else file_path +:+ ".png") "avatars" w) with
          | Some _ => []
          | None => [GetObject ("avatars/" +:+ DEFAULT_AVATAR_FILENAME env)]
          end.
Proof.
  intros H1 H2. rewrite (get_avatar_run env file_path _ H1 H2). cbv zeta.
  set (name := if endswith file_path ".png" then file_path else file_path +:+ ".png").
  pose proof (s3_download_bucket name "avatars" w) as Hb1.
  pose proof (s3_download_calls name "avatars" w) as Hc1.
  pose proof (s3_download_bucket (DEFAULT_AVATAR_FILENAME env) "avatars"
                (world_after (s3.download name "avatars" w))) as Hb2.
  pose proof (s3_download_calls (DEFAULT_AVATAR_FILENAME env) "avatars"
                (world_after (s3.download name "avatars" w))) as Hc2.
  destruct (result (s3.download name "avatars" w)) as [r|].
  - unfold world_after, events in *; cbn [fst snd] in *.
    rewrite Hb1, s3_calls_app, Hc1. split; reflexivity.
  - destruct (result (s3.download (DEFAULT_AVATAR_FILENAME env) "avatars" _)) as [r|];
      unfold world_after, events in *; cbn [fst snd] in *;
      rewrite Hb2, Hb1, !s3_calls_app, Hc1, Hc2; split; reflexivity.
Qed.

Lemma X17_witness :
  bucket (world_after (get_avatar (sample_env false (mkImage None None 0 0) None)
                         "1001" empty_world)) = bucket empty_world
  /\ s3_calls (events (get_avatar (sample_env false (mkImage None None 0 0) None)
                         "1001" empty_world))
     = GetObject ("avatars/" +:+
                    (if endswith "1001" ".png" then "1001" else "1001" +:+ ".png"))
       :: match result (s3.download
                          (if endswith "1001" ".png" then "1001" else "1001" +:+ ".png")
                          "avatars" empty_world) with
          | Some _ => []
          | None => [GetObject ("avatars/" +:+ DEFAULT_AVATAR_FILENAME
                                                 (sample_env false (mkImage None None 0 0) None))]
          end.
Proof.
  apply (X17_get_avatar_only_reads (sample_env false (mkImage None None 0 0) None)
           "1001" empty_world); reflexivity.
Defined.

(** ** Strings *)

Lemma prefix_empty (s : string) : String.prefix "" s = true.
Proof. destruct s; reflexivity. Qed.

Lemma contains_slash_app (a b : string) :
  contains "/" (a +:+ b) = contains "/" a || contains "/" b.
Proof.
  induction a as [|c a IH]; [reflexivity|].
  change (String c a +:+ b) with (String c (a +:+ b)).
  cbn [contains String.prefix]. rewrite IH.
  destruct (ascii_dec "/" c); [|reflexivity].
  rewrite !prefix_empty. reflexivity.
Qed.

Lemma string_length_app (a b : string) :
  String.length (a +:+ b) = (String.length a + String.length b)%nat.
Proof. induction a as [|c a IH]; simpl; [reflexivity|]. rewrite IH. reflexivity. Qed.

Lemma substring_all (s : string) : String.substring 0 (String.length s) s = s.
Proof. induction s as [|c s IH]; simpl; [reflexivity|]. rewrite IH. reflexivity. Qed.

Lemma substring_skip (a b : string) :
  String.substring (String.length a) (String.length b) (a +:+ b) = b.
Proof. induction a as [|c a IH]; simpl; [apply substring_all|exact IH]. Qed.

Lemma endswith_app (a suffix : string) : endswith (a +:+ suffix) suffix = true.
Proof.
  unfold endswith. rewrite string_length_app.
  replace (String.length suffix <=? String.length a + String.length suffix)%nat with true
    by (symmetry; apply Nat.leb_le; lia).
  replace (String.length a + String.length suffix - String.length suffix)%nat
    with (String.length a) by lia.
  rewrite substring_skip. apply String.eqb_refl.
Qed.

Lemma string_app_inv_head (a x y : string) : a +:+ x = a +:+ y -> x = y.
Proof. induction a as [|c a IH]; simpl; [auto|]. intros [= H]. auto. Qed.

(** X18: on a path that passes the traversal check, the name [get_avatar]
    asks S3 for ends in [.png] and contains no [/], so the key is an object
    directly under [avatars/]; appending [.png] to it again changes nothing. *)
Theorem X18_requested_name_is_a_png_under_avatars (file_path : string) :
  contains "/" file_path = false ->
  let name := if endswith file_path ".png" then file_path else file_path +:+ ".png" in
  endswith name ".png" = true
  /\ contains "/" name = false
  /\ (if endswith name ".png" then name else name +:+ ".png") = name.
Proof.
  intros H name.
  assert (Hend : endswith name ".png" = true).
  { subst name. destruct (endswith file_path ".png") eqn:He; [exact He|apply endswith_app]. }
  split; [exact Hend|]. split.
  - subst name. destruct (endswith file_path ".png"); [exact H|].
    rewrite contains_slash_app, H. reflexivity.
  - rewrite Hend. reflexivity.
Qed.

Lemma X18_witness :
  let name := if endswith "1001" ".png" then "1001" else "1001" +:+ ".png" in
  endswith name ".png" = true
  /\ contains "/" name = false
  /\ (if endswith name ".png" then name else name +:+ ".png") = name.
Proof.
  apply (X18_requested_name_is_a_png_under_avatars "1001"). reflexivity.
Defined.

(** ** Upload, fetch and delete together *)

Lemma upload_image_stored_object (env : Env) (image_type : ImageType)
    (image_content : bytes) (no_ext_file_name : string) (b : gmap string S3Object)
    (fmt mime : string) (content : bytes) :
  process_image env image_type image_content = Encoded fmt mime content ->
  result (upload_image env image_type image_content no_ext_file_name (mkWorld b [])) = None ->
  world_after (upload_image env image_type image_content no_ext_file_name (mkWorld b []))
  = mkWorld (<[get_s3_folder image_type +:+ "/" +:+ (no_ext_file_name +:+ "." +:+ lower fmt)
               := mkS3Object content (Some mime)]> b) [].
Proof.
  intros Hp Hok. rewrite (upload_image_after_encoding _ _ _ _ _ _ _ _ Hp) in *.
  destruct (result (moderate env image_type no_ext_file_name mime content (mkWorld b [])));
    [discriminate|].
  unfold world_after at 1; cbn [fst snd]. rewrite s3_upload_world. reflexivity.
Qed.

(** X19: a successful [upload_image] with the provider going through stores
    exactly one object: the encoded image with the detected MIME type as its
    content type, under [directory/name.format] with the format in lower
    case; the rest of the bucket is as before. *)
Theorem X19_upload_stores_one_object (env : Env) (image_type : ImageType)
    (image_content : bytes) (no_ext_file_name : string) (b : gmap string S3Object)
    (fmt mime : string) (content : bytes) :
  process_image env image_type image_content = Encoded fmt mime content ->
  result (upload_image env image_type image_content no_ext_file_name (mkWorld b [])) = None ->
  world_after (upload_image env image_type image_content no_ext_file_name (mkWorld b []))
  = mkWorld (<[get_s3_folder image_type +:+ "/" +:+ (no_ext_file_name +:+ "." +:+ lower fmt)
               := mkS3Object content (Some mime)]> b) [].
Proof.
  apply upload_image_stored_object.
Qed.

Lemma X19_witness :
  world_after (upload_image (sample_env false (mkImage (Some "JPEG") (Some "image/jpeg") 300 200) None)
                 USER_AVATAR [] "1001" (mkWorld ∅ []))
  = mkWorld (<[get_s3_folder USER_AVATAR +:+ "/" +:+ ("1001" +:+ "." +:+ lower "JPEG")
               := mkS3Object [] (Some "image/jpeg")]> ∅) [].
Proof.
  apply (X19_upload_stores_one_object
           (sample_env false (mkImage (Some "JPEG") (Some "image/jpeg") 300 200) None)
           USER_AVATAR [] "1001" ∅ "JPEG" "image/jpeg" []).
  - vm_compute. reflexivity.
  - vm_compute. reflexivity.
Defined.

Lemma get_avatar_after_png_upload (env : Env) (image_content : bytes)
    (no_ext_file_name : string) (b : gmap string S3Object)
    (fmt mime : string) (content : bytes) :
  contains ".." no_ext_file_name = false ->
  contains "/" no_ext_file_name = false ->
  endswith no_ext_file_name ".png" = false ->
  process_image env USER_AVATAR image_content = Encoded fmt mime content ->
  lower fmt = "png" ->
  result (upload_image env USER_AVATAR image_content no_ext_file_name (mkWorld b [])) = None ->
  result (get_avatar env no_ext_file_name
            (world_after (upload_image env USER_AVATAR image_content no_ext_file_name
                            (mkWorld b []))))
  = mkResponse 200 (Raw content) (Some mime).
Proof.
  intros H1 H2 H3 Hp Hfmt Hok.
  rewrite (upload_image_stored_object env USER_AVATAR image_content no_ext_file_name b
             fmt mime content Hp Hok).
  rewrite (get_avatar_run env no_ext_file_name _ H1 H2). cbv zeta.
  rewrite H3, Hfmt, s3_download_run. cbn [result world_after fst snd tl].
  change (s3.key_of "avatars" (no_ext_file_name +:+ ".png"))
    with (get_s3_folder USER_AVATAR +:+ "/" +:+ (no_ext_file_name +:+ "." +:+ "png")).
  rewrite lookup_insert_eq. reflexivity.
Qed.

(** X20: round trip for PNG avatars.  After a successful upload of an image
    whose format lowercases to [png] under a name that passes the traversal
    check and does not end in [.png], [get_avatar] of that name answers 200
    with the stored bytes and the detected MIME type. *)
Theorem X20_png_avatar_round_trip (env : Env) (image_content : bytes)
    (no_ext_file_name : string) (b : gmap string S3Object)
    (fmt mime : string) (content : bytes) :
  contains ".." no_ext_file_name = false ->
  contains "/" no_ext_file_name = false ->
  endswith no_ext_file_name ".png" = false ->
  process_image env USER_AVATAR image_content = Encoded fmt mime content ->
  lower fmt = "png" ->
  result (upload_image env USER_AVATAR image_content no_ext_file_name (mkWorld b [])) = None ->
  result (get_avatar env no_ext_file_name
            (world_after (upload_image env USER_AVATAR image_content no_ext_file_name
                            (mkWorld b []))))
  = mkResponse 200 (Raw content) (Some mime).
Proof. apply get_avatar_after_png_upload. Qed.

Lemma X20_witness :
  result (get_avatar (sample_env false (mkImage (Some "PNG") (Some "image/png") 300 200) None)
            "1001"
            (world_after (upload_image
                            (sample_env false (mkImage (Some "PNG") (Some "image/png") 300 200) None)
                            USER_AVATAR [] "1001" (mkWorld ∅ []))))
  = mkResponse 200 (Raw []) (Some "image/png").
Proof.
  apply (X20_png_avatar_round_trip
           (sample_env false (mkImage (Some "PNG") (Some "image/png") 300 200) None)
           [] "1001" ∅ "PNG" "image/png" []);
    vm_compute; reflexivity.
Defined.

(** X21: an avatar in any other format is stored where [get_avatar] does not
    look.  When the format does not lowercase to [png] (and the default
    avatar is not that very file), uploading under a name changes nothing in
    what [get_avatar] answers for that name: the image goes to
    [avatars/name.format], the fetch reads [avatars/name.png]. *)
Theorem X21_other_formats_are_not_served (env : Env) (image_content : bytes)
    (no_ext_file_name : string) (b : gmap string S3Object)
    (fmt mime : string) (content : bytes) :
  contains ".." no_ext_file_name = false ->
  contains "/" no_ext_file_name = false ->
  endswith no_ext_file_name ".png" = false ->
  process_image env USER_AVATAR image_content = Encoded fmt mime content ->
  lower fmt <> "png" ->
  DEFAULT_AVATAR_FILENAME env <> no_ext_file_name +:+ "." +:+ lower fmt ->
  result (get_avatar env no_ext_file_name
            (world_after (upload_image env USER_AVATAR image_content no_ext_file_name
                            (mkWorld b []))))
  = result (get_avatar env no_ext_file_name (mkWorld b [])).
Proof.
  intros H1 H2 H3 Hp Hfmt Hdef.
  rewrite (upload_image_after_encoding _ _ _ _ _ _ _ _ Hp).
  destruct (moderate_run env USER_AVATAR no_ext_file_name mime content (mkWorld b []))
    as (Hw & _).
  destruct (result (moderate env USER_AVATAR no_ext_file_name mime content (mkWorld b []))).
  { reflexivity. }
  unfold world_after at 1; cbn [fst snd]. rewrite s3_upload_world.
  rewrite !(get_avatar_run env no_ext_file_name _ H1 H2). cbv zeta.
  rewrite H3, !s3_download_run. cbn [result world_after fst snd tl].
  change (s3.key_of "avatars" ?x) with ("avatars/" +:+ x).
  change (s3.key_of (get_s3_folder USER_AVATAR) ?x) with ("avatars/" +:+ x).
  rewrite lookup_insert_ne.
  2:{ intros Heq. apply (string_app_inv_head "avatars/") in Heq.
      apply string_app_inv_head in Heq. apply Hfmt.
      injection Heq as Heq. exact Heq. }
  destruct (b !! ("avatars/" +:+ (no_ext_file_name +:+ ".png"))) as [obj|]; [reflexivity|].
  rewrite !s3_download_run. cbn [result world_after fst snd tl].
  change (s3.key_of "avatars" ?x) with ("avatars/" +:+ x).
  rewrite lookup_insert_ne.
  2:{ intros Heq. apply (string_app_inv_head "avatars/") in Heq. congruence. }
  destruct (b !! ("avatars/" +:+ DEFAULT_AVATAR_FILENAME env)); reflexivity.
Qed.

Lemma X21_witness :
  result (get_avatar (sample_env false (mkImage (Some "JPEG") (Some "image/jpeg") 300 200) None)
            "1001"
            (world_after (upload_image
                            (sample_env false (mkImage (Some "JPEG") (Some "image/jpeg") 300 200) None)
                            USER_AVATAR [] "1001" (mkWorld ∅ []))))
  = result (get_avatar (sample_env false (mkImage (Some "JPEG") (Some "image/jpeg") 300 200) None)
              "1001" (mkWorld ∅ [])).
Proof.
  apply (X21_other_formats_are_not_served
           (sample_env false (mkImage (Some "JPEG") (Some "image/jpeg") 300 200) None)
           [] "1001" ∅ "JPEG" "image/jpeg" []);
    vm_compute; (reflexivity || discriminate).
Defined.

(** ** delete_image and delete_avatar *)

Lemma delete_image_result (image_type : ImageType) (no_ext_file_name : string) (w : World) :
  result (delete_image image_type no_ext_file_name w) = None.
Proof. unfold delete_image. rewrite !result_bind. reflexivity. Qed.

Lemma delete_image_world (image_type : ImageType) (no_ext_file_name : string) (w : World) :
  world_after (delete_image image_type no_ext_file_name w)
  = world_after (for_each DELETE_EXTENSIONS
                   (fun ext => s3.delete (no_ext_file_name +:+ "." +:+ ext)
                                 (get_s3_folder image_type)) w).
Proof. unfold delete_image. rewrite !run_bind. reflexivity. Qed.

Lemma s3_delete_bucket_cases (file_name directory : string) (w : World) :
  bucket (world_after (s3.delete file_name directory w)) = bucket w
  \/ bucket (world_after (s3.delete file_name directory w))
     = delete (s3.key_of directory file_name) (bucket w).
Proof.
  destruct w as [b fs]. rewrite s3_delete_world.
  destruct fs as [|[e|] fs']; simpl; auto.
Qed.

Lemma for_each_delete_frame (directory : string) (name_of : string -> string)
    (exts : list string) (w : World) (key : string) :
  (forall ext, In ext exts -> key <> s3.key_of directory (name_of ext)) ->
  bucket (world_after (for_each exts (fun ext => s3.delete (name_of ext) directory) w)) !! key
  = bucket w !! key.
Proof.
  revert w. induction exts as [|ext exts IH]; intros w Hne; [reflexivity|].
  cbn [for_each]. rewrite run_bind. unfold world_after at 1; cbn [fst snd].
  rewrite IH by (intros e He; apply Hne; right; exact He).
  destruct (s3_delete_bucket_cases (name_of ext) directory w) as [-> | ->]; [reflexivity|].
  apply lookup_delete_ne. intros Heq. apply (Hne ext); [left; reflexivity|congruence].
Qed.

Lemma for_each_delete_shrinks (directory : string) (name_of : string -> string)
    (exts : list string) (w : World) :
  bucket (world_after (for_each exts (fun ext => s3.delete (name_of ext) directory) w))
  ⊆ bucket w.
Proof.
  revert w. induction exts as [|ext exts IH]; intros w; [reflexivity|].
  cbn [for_each]. rewrite run_bind. unfold world_after at 1; cbn [fst snd].
  etransitivity; [apply IH|].
  destruct (s3_delete_bucket_cases (name_of ext) directory w) as [-> | ->];
    [reflexivity|apply delete_subseteq].
Qed.

(** X22: [delete_avatar] answers 204 with no content in every world: whatever
    is stored and whatever the provider does with the deletes. *)
Theorem X22_delete_avatar_always_204 (user_id : Z) (w : World) :
  result (delete_avatar user_id w) = mkResponse 204 NoContent None.
Proof.
  unfold delete_avatar. rewrite result_bind, delete_image_result. reflexivity.
Qed.

(** X23: [delete_image] never adds or alters an object, and touches only its
    five keys: whatever the provider does, an object found afterwards was
    there before, and the object under any key other than
    [directory/name.ext], for [ext] among png, jpg, jpeg, gif, webp, is the
    same before and after. *)
Theorem X23_delete_image_touches_only_its_keys (image_type : ImageType)
    (no_ext_file_name : string) (w : World) :
  (forall key obj,
     bucket (world_after (delete_image image_type no_ext_file_name w)) !! key = Some obj ->
     bucket w !! key = Some obj)
  /\ (forall key,
        (forall ext, In ext ["png"; "jpg"; "jpeg"; "gif"; "webp"] ->
                     key <> get_s3_folder image_type +:+ "/" +:+
                            (no_ext_file_name +:+ "." +:+ ext)) ->
        bucket (world_after (delete_image image_type no_ext_file_name w)) !! key
        = bucket w !! key).
Proof.
  rewrite delete_image_world. split.
  - intros key obj Hk.
    pose proof (for_each_delete_shrinks (get_s3_folder image_type)
                  (fun ext => no_ext_file_name +:+ "." +:+ ext) DELETE_EXTENSIONS w) as Hsub.
    eapply lookup_weaken; [exact Hk|exact Hsub].
  - intros key Hne.
    apply (for_each_delete_frame (get_s3_folder image_type)
             (fun ext => no_ext_file_name +:+ "." +:+ ext)).
    exact Hne.
Qed.

Lemma key_of_folder_inj (t1 t2 : ImageType) (n1 n2 : string) :
  s3.key_of (get_s3_folder t1) n1 = s3.key_of (get_s3_folder t2) n2 ->
  t1 = t2 /\ n1 = n2.
Proof.
  destruct t1, t2; cbn; intros H; try discriminate H;
    (split; [reflexivity|]); injection H as H; exact H.
Qed.

(** X24: keys of different image types never coincide: the key determines the
    image type and the file name.  Hence [delete_image] for one type leaves
    every object of the other types where it is, whatever the names. *)
Theorem X24_image_types_do_not_share_keys (t1 t2 : ImageType) (n1 n2 : string) (w : World) :
  (get_s3_folder t1 +:+ "/" +:+ n1 = get_s3_folder t2 +:+ "/" +:+ n2 -> t1 = t2 /\ n1 = n2)
  /\ (t1 <> t2 ->
      bucket (world_after (delete_image t1 n1 w)) !! (get_s3_folder t2 +:+ "/" +:+ n2)
      = bucket w !! (get_s3_folder t2 +:+ "/" +:+ n2)).
Proof.
  split; [apply key_of_folder_inj|].
  intros Hne. rewrite delete_image_world.
  apply (for_each_delete_frame (get_s3_folder t1) (fun ext => n1 +:+ "." +:+ ext)).
  intros ext _ Heq. symmetry in Heq. apply key_of_folder_inj in Heq. tauto.
Qed.

(** ** User ids as file names *)

Lemma no_dot_slash_cons (c : ascii) (s : string) :
  no_dot_slash (String c s) = true <->
  c <> "."%char /\ c <> "/"%char /\ no_dot_slash s = true.
Proof.
  cbn [no_dot_slash]. rewrite !andb_true_iff, !negb_true_iff, !Ascii.eqb_neq. tauto.
Qed.

Lemma no_dot_slash_pretty_N_go (x : N) (s : string) :
  no_dot_slash s = true -> no_dot_slash (pretty_N_go x s) = true.
Proof.
  revert s. induction (N.lt_wf_0 x) as [x _ IH]; intros s Hs.
  destruct (decide (x = 0)%N) as [->|Hx]; [rewrite pretty_N_go_0; exact Hs|].
  rewrite pretty_N_go_step by lia.
  apply IH; [apply N.div_lt; lia|].
  apply no_dot_slash_cons. split; [|split; [|exact Hs]];
    unfold pretty_N_char; repeat case_match; discriminate.
Qed.

Lemma no_dot_slash_pretty_Z (x : Z) : no_dot_slash (pretty x) = true.
Proof.
  assert (HN : forall n : N, no_dot_slash (pretty n) = true).
  { intros n. unfold pretty, pretty_N. case_decide; [reflexivity|].
    apply no_dot_slash_pretty_N_go. reflexivity. }
  destruct x as [|p|p]; [reflexivity|apply HN|].
  change (pretty (Z.neg p)) with ("-" +:+ pretty (N.pos p)).
  change ("-" +:+ pretty (N.pos p)) with (String "-" (pretty (N.pos p))).
  apply no_dot_slash_cons. repeat split; try discriminate. apply HN.
Qed.

Lemma no_dot_slash_substring (s : string) (n m : nat) :
  no_dot_slash s = true -> no_dot_slash (String.substring n m s) = true.
Proof.
  revert n m. induction s as [|c s IH]; intros n m Hs.
  - destruct n, m; reflexivity.
  - apply no_dot_slash_cons in Hs. destruct Hs as (H1 & H2 & Hs).
    destruct n as [|n]; [destruct m as [|m]; [reflexivity|]|].
    + cbn [String.substring]. apply no_dot_slash_cons. auto.
    + cbn [String.substring]. auto.
Qed.

(** A name without dot or slash passes the traversal check and does not end
    in [.png]. *)
Lemma no_dot_slash_passes (s : string) :
  no_dot_slash s = true ->
  contains ".." s = false /\ contains "/" s = false /\ endswith s ".png" = false.
Proof.
  intros Hs. split; [|split].
  - induction s as [|c s IH]; [reflexivity|].
    apply no_dot_slash_cons in Hs. destruct Hs as (H1 & _ & Hs).
    cbn [contains String.prefix]. rewrite (IH Hs).
    destruct (ascii_dec "." c); [congruence|reflexivity].
  - induction s as [|c s IH]; [reflexivity|].
    apply no_dot_slash_cons in Hs. destruct Hs as (_ & H2 & Hs).
    cbn [contains String.prefix]. rewrite (IH Hs).
    destruct (ascii_dec "/" c); [congruence|reflexivity].
  - unfold endswith. destruct (_ <=? _)%nat; [|reflexivity].
    apply not_true_is_false. intros Heq. apply String.eqb_eq in Heq.
    pose proof (no_dot_slash_substring s (String.length s - String.length ".png")
                  (String.length ".png") Hs) as Hsub.
    rewrite Heq in Hsub. discriminate Hsub.
Qed.

Lemma respond_world (data : option Error) (w : World) :
  world_after (respond data w) = w.
Proof. destruct data as [[msg []]|]; reflexivity. Qed.

Lemma respond_204 (data : option Error) (w : World) :
  status_code (result (respond data w)) = 204 -> data = None.
Proof. destruct data as [[msg []]|]; [discriminate..|reflexivity]. Qed.

Lemma upload_avatar_world (env : Env) (user_id : Z) (file_content : bytes) (w : World) :
  world_after (upload_avatar env user_id file_content w)
  = world_after (upload_image env USER_AVATAR file_content (pretty user_id) w).
Proof. unfold upload_avatar. rewrite run_bind. apply respond_world. Qed.

(** X25: round trip through the two handlers.  When [upload_avatar] answers
    204 for a user id and the image's format lowercases to [png],
    [get_avatar] of that user id (in decimal) answers 200 with the re-encoded
    bytes and the detected MIME type. *)
Theorem X25_avatar_handlers_round_trip (env : Env) (user_id : Z) (file_content : bytes)
    (b : gmap string S3Object) (fmt mime : string) (content : bytes) :
  process_image env USER_AVATAR file_content = Encoded fmt mime content ->
  lower fmt = "png" ->
  status_code (result (upload_avatar env user_id file_content (mkWorld b []))) = 204 ->
  result (get_avatar env (pretty user_id)
            (world_after (upload_avatar env user_id file_content (mkWorld b []))))
  = mkResponse 200 (Raw content) (Some mime).
Proof.
  intros Hp Hfmt Hstatus.
  destruct (no_dot_slash_passes (pretty user_id) (no_dot_slash_pretty_Z user_id))
    as (H1 & H2 & H3).
  rewrite upload_avatar_world.
  apply (get_avatar_after_png_upload env file_content (pretty user_id) b fmt mime content);
    try assumption.
  unfold upload_avatar in Hstatus. rewrite result_bind in Hstatus.
  apply respond_204 in Hstatus. exact Hstatus.
Qed.

Lemma X25_witness :
  result (get_avatar (sample_env false (mkImage (Some "PNG") (Some "image/png") 300 200) None)
            (pretty 1001)
            (world_after (upload_avatar
                            (sample_env false (mkImage (Some "PNG") (Some "image/png") 300 200) None)
                            1001 [] (mkWorld ∅ []))))
  = mkResponse 200 (Raw []) (Some "image/png").
Proof.
  apply (X25_avatar_handlers_round_trip
           (sample_env false (mkImage (Some "PNG") (Some "image/png") 300 200) None)
           1001 [] ∅ "PNG" "image/png" []);
    vm_compute; reflexivity.
Defined.

Lemma split_at_first_dot (a a' x y : string) :
  no_dot_slash a = true -> no_dot_slash a' = true ->
  a +:+ "." +:+ x = a' +:+ "." +:+ y -> a = a'.
Proof.
  revert a'. induction a as [|c a IH]; intros [|c' a'] Ha Ha' Heq.
  - reflexivity.
  - apply no_dot_slash_cons in Ha'. destruct Ha' as (Hd & _).
    cbn in Heq. injection Heq as Hc _. congruence.
  - apply no_dot_slash_cons in Ha. destruct Ha as (Hd & _).
    cbn in Heq. injection Heq as Hc _. congruence.
  - apply no_dot_slash_cons in Ha. apply no_dot_slash_cons in Ha'.
    cbn in Heq. injection Heq as -> Heq. f_equal. apply IH; tauto.
Qed.

Lemma user_keys_differ (u1 u2 : Z) (ext1 ext2 : string) :
  u1 <> u2 ->
  "avatars/" +:+ (pretty u1 +:+ "." +:+ ext1) <> "avatars/" +:+ (pretty u2 +:+ "." +:+ ext2).
Proof.
  intros Hne Heq. apply (string_app_inv_head "avatars/") in Heq.
  apply split_at_first_dot in Heq; try apply no_dot_slash_pretty_Z.
  apply Hne. apply (inj pretty). exact Heq.
Qed.

Lemma upload_image_frame (env : Env) (image_type : ImageType) (image_content : bytes)
    (no_ext_file_name : string) (w : World) (key : string) :
  (forall ext, key <> s3.key_of (get_s3_folder image_type)
                        (no_ext_file_name +:+ "." +:+ ext)) ->
  bucket (world_after (upload_image env image_type image_content no_ext_file_name w)) !! key
  = bucket w !! key.
Proof.
  intros Hne.
  destruct (process_image env image_type image_content) as [e| |fmt mime content] eqn:Hp.
  - unfold upload_image. rewrite Hp. reflexivity.
  - unfold upload_image. rewrite Hp. reflexivity.
  - rewrite (upload_image_after_encoding _ _ _ _ _ _ _ _ Hp).
    destruct (result (moderate env image_type no_ext_file_name mime content w));
      [reflexivity|].
    unfold world_after at 1; cbn [fst snd]. destruct w as [b fs].
    rewrite s3_upload_world.
    destruct fs as [|[exc|] fs']; cbn [bucket]; try reflexivity;
      apply lookup_insert_ne; intros Heq; apply (Hne (lower fmt)); congruence.
Qed.

(** X26: users do not interfere.  Whatever the image, the stored objects and
    the provider's behaviour, [upload_avatar] and [delete_avatar] for one user
    id leave the object under [avatars/<other id>.<ext>] as it is, for every
    other user id and every extension. *)
Theorem X26_users_do_not_interfere (env : Env) (u1 u2 : Z) (file_content : bytes)
    (ext : string) (w : World) :
  u1 <> u2 ->
  bucket (world_after (upload_avatar env u1 file_content w))
    !! ("avatars/" +:+ (pretty u2 +:+ "." +:+ ext))
  = bucket w !! ("avatars/" +:+ (pretty u2 +:+ "." +:+ ext))
  /\ bucket (world_after (delete_avatar u1 w))
       !! ("avatars/" +:+ (pretty u2 +:+ "." +:+ ext))
     = bucket w !! ("avatars/" +:+ (pretty u2 +:+ "." +:+ ext)).
Proof.
  intros Hne. split.
  - rewrite upload_avatar_world. apply upload_image_frame.
    intros e Heq. apply (user_keys_differ u2 u1 ext e); [congruence|exact Heq].
  - unfold delete_avatar. rewrite run_bind. rewrite respond_world.
    rewrite delete_image_world.
    apply (for_each_delete_frame (get_s3_folder USER_AVATAR)
             (fun e => pretty u1 +:+ "." +:+ e)).
    intros e _ Heq. apply (user_keys_differ u2 u1 ext e); [congruence|exact Heq].
Qed.

Lemma X26_witness :
  bucket (world_after (upload_avatar
                         (sample_env false (mkImage (Some "PNG") (Some "image/png") 300 200) None)
                         1001 [] empty_world))
    !! ("avatars/" +:+ (pretty 1002 +:+ "." +:+ "png"))
  = bucket empty_world !! ("avatars/" +:+ (pretty 1002 +:+ "." +:+ "png"))
  /\ bucket (world_after (delete_avatar 1001 empty_world))
       !! ("avatars/" +:+ (pretty 1002 +:+ "." +:+ "png"))
     = bucket empty_world !! ("avatars/" +:+ (pretty 1002 +:+ "." +:+ "png")).
Proof.
  apply (X26_users_do_not_interfere
           (sample_env false (mkImage (Some "PNG") (Some "image/png") 300 200) None)
           1001 1002 [] "png" empty_world).
  discriminate.
Defined.

Lemma delete_avatar_world (user_id : Z) (w : World) :
  world_after (delete_avatar user_id w)
  = world_after (delete_image USER_AVATAR (pretty user_id) w).
Proof. unfold delete_avatar. rewrite run_bind. apply respond_world. Qed.

Lemma delete_image_fault_free (image_type : ImageType) (no_ext_file_name : string)
    (b : gmap string S3Object) :
  world_after (delete_image image_type no_ext_file_name (mkWorld b []))
  = mkWorld (fold_left (fun m ext => delete (s3.key_of (get_s3_folder image_type)
                                               (no_ext_file_name +:+ "." +:+ ext)) m)
                       DELETE_EXTENSIONS b) [].
Proof. reflexivity. Qed.

(** X27: after [delete_avatar] with the provider going through, [get_avatar]
    of the same user id no longer serves what was stored for that user: it
    answers with the default avatar, or 404 when there is none (the default
    avatar not being a file of that user). *)
Theorem X27_deleted_avatar_is_not_served (env : Env) (user_id : Z)
    (b : gmap string S3Object) :
  (forall ext, DEFAULT_AVATAR_FILENAME env <> pretty user_id +:+ "." +:+ ext) ->
  result (get_avatar env (pretty user_id)
            (world_after (delete_avatar user_id (mkWorld b []))))
  = match b !! ("avatars/" +:+ DEFAULT_AVATAR_FILENAME env) with
    | Some obj => mkResponse 200 (Raw (Body obj)) (ContentType obj)
    | None => mkResponse 404 NoContent None
    end.
Proof.
  intros Hdef.
  destruct (no_dot_slash_passes (pretty user_id) (no_dot_slash_pretty_Z user_id))
    as (H1 & H2 & H3).
  rewrite delete_avatar_world, delete_image_fault_free.
  rewrite (get_avatar_fault_free env (pretty user_id) _ H1 H2). rewrite H3.
  unfold DELETE_EXTENSIONS. cbn [fold_left get_s3_folder].
  change (s3.key_of "avatars" ?x) with ("avatars/" +:+ x).
  replace (_ !! ("avatars/" +:+ (pretty user_id +:+ ".png"))) with (@None S3Object).
  2:{ symmetry.
      do 4 (rewrite lookup_delete_ne
              by (intros Heq; apply (string_app_inv_head "avatars/") in Heq;
                  apply string_app_inv_head in Heq; discriminate Heq)).
      apply lookup_delete_eq. }
  rewrite !lookup_delete_ne; [reflexivity|..];
    intros Heq; apply (string_app_inv_head "avatars/") in Heq;
    symmetry in Heq; exact (Hdef _ Heq).
Qed.

Lemma X27_witness :
  result (get_avatar (sample_env false (mkImage None None 0 0) None) (pretty 1001)
            (world_after (delete_avatar 1001
                            (mkWorld {[ "avatars/1001.png" := mkS3Object [] (Some "image/png") ]}
                                     []))))
  = match ({[ "avatars/1001.png" := mkS3Object [] (Some "image/png") ]}
             : gmap string S3Object)
          !! ("avatars/" +:+ DEFAULT_AVATAR_FILENAME
                               (sample_env false (mkImage None None 0 0) None)) with
    | Some obj => mkResponse 200 (Raw (Body obj)) (ContentType obj)
    | None => mkResponse 404 NoContent None
    end.
Proof.
  apply (X27_deleted_avatar_is_not_served
           (sample_env false (mkImage None None 0 0) None) 1001
           {[ "avatars/1001.png" := mkS3Object [] (Some "image/png") ]}).
  intros ext. vm_compute. discriminate.
Defined.

(** X28: with the provider going through, none of the five candidate keys is
    left after [delete_image]; but when the provider raises on the first
    delete, the [.png] object stays in the bucket and [delete_image] reports
    success all the same. *)
Theorem X28_delete_image_sweep_and_failed_delete (image_type : ImageType)
    (no_ext_file_name : string) (b : gmap string S3Object) (exc : BotoError) :
  (forall ext, In ext ["png"; "jpg"; "jpeg"; "gif"; "webp"] ->
     bucket (world_after (delete_image image_type no_ext_file_name (mkWorld b [])))
       !! (get_s3_folder image_type +:+ "/" +:+ (no_ext_file_name +:+ "." +:+ ext)) = None)
  /\ bucket (world_after (delete_image image_type no_ext_file_name (mkWorld b [Some exc])))
       !! (get_s3_folder image_type +:+ "/" +:+ (no_ext_file_name +:+ ".png"))
     = b !! (get_s3_folder image_type +:+ "/" +:+ (no_ext_file_name +:+ ".png"))
  /\ result (delete_image image_type no_ext_file_name (mkWorld b [Some exc])) = None.
Proof.
  split; [|split; [|apply delete_image_result]].
  - intros ext Hext. rewrite delete_image_fault_free.
    unfold DELETE_EXTENSIONS. cbn [fold_left bucket].
    change (s3.key_of ?d ?x) with (d +:+ "/" +:+ x).
    simpl in Hext.
    destruct Hext as [<- | [<- | [<- | [<- | [<- | []]]]]];
      repeat (rewrite lookup_delete; case_decide; [reflexivity|]);
      congruence.
  - assert (Hw : world_after (delete_image image_type no_ext_file_name
                                (mkWorld b [Some exc]))
                 = mkWorld (fold_left
                              (fun m ext => delete (s3.key_of (get_s3_folder image_type)
                                                      (no_ext_file_name +:+ "." +:+ ext)) m)
                              ["jpg"; "jpeg"; "gif"; "webp"] b) []).
    { destruct exc; reflexivity. }
    rewrite Hw. cbn [fold_left bucket].
    change (s3.key_of ?d ?x) with (d +:+ "/" +:+ x).
    rewrite !lookup_delete_ne; [reflexivity|..];
      intros Heq; apply string_app_inv_head in Heq;
      apply (string_app_inv_head "/") in Heq;
      apply string_app_inv_head in Heq; discriminate Heq.
Qed.
